(** * Edumax document server: a shallow embedding of [server/index.js]

    The server is an Express application with four routes over two MongoDB
    stores: the [pdfs] collection (one metadata document per uploaded PDF,
    described by [pdfSchema]) and the GridFS bucket [uploads] (the file
    contents, cut into chunks).  The embedding keeps the routes as functions
    from a request, the answers of the outside world during that request
    ([Env.t]) and the server state to a response and the next state.

    Library behaviour the routes rely on (ECMAScript [Number] and [||],
    [path.extname], BSON object ids, the GridFS bucket of the MongoDB driver,
    Mongoose validation, multer's memory storage) is modelled next to the
    route that calls it, each in a module named after the library.

    A route runs to completion on the state it finds: what other requests or
    the [open] event could do between two [await]s of one handler is outside
    the model.  Calls to the database may fail; [Env.failure] says which.

    An event of a run is placed where its handler gets to act on the
    state: for the listing and the delete route, which start with a model
    call, that is where this call is answered.  Until the connection has
    opened Mongoose buffers the model calls, so a listing or a delete that
    arrived earlier and was answered after the opening is an event after
    [Open], and one placed before [Open] has seen its model calls time out
    ([Server.step]).  A download that fails after data has been sent makes
    the process exit; [Server.run] stops there. *)

From Stdlib Require Import ZArith NArith String Ascii List Permutation.
From Stdlib Require Import Floats.SpecFloat.
From stdpp Require Import gmap strings list sorting.

Local Open Scope N_scope.

(** ** ECMAScript values used by the routes *)

Module JS.

(** A Number is an IEEE 754 binary64 value. *)
Definition number : Type := spec_float.
Definition prec : Z := 53.
Definition emax : Z := 1024.

Definition NaN : number := S754_nan.
Definition zero : number := S754_zero false.
Definition Infinity : number := S754_infinity false.

(** A text field of a multipart form as it appears in [req.body]: the
    property is either missing or a string. *)
Inductive value : Type :=
| undefined
| str (s : string).

(** ToBoolean, on numbers and on form fields. *)
Definition truthy_number (x : number) : bool :=
  match x with
  | S754_nan | S754_zero _ => false
  | S754_infinity _ | S754_finite _ _ _ => true
  end.

Definition truthy (v : value) : bool :=
  match v with
  | undefined => false
  | str s => negb (String.eqb s "")
  end.

(** [x || y] with a Number on the left. *)
Definition or_number (x y : number) : number :=
  if truthy_number x then x else y.

(** [v || d] with a form field on the left and a string literal on the
    right; the result is always a string. *)
Definition or_string (v : value) (d : string) : string :=
  match v with
  | str s => if truthy v then s else d
  | undefined => d
  end.

(** [x > y] on Numbers: false as soon as one side is NaN. *)
Definition gt (x y : number) : bool := SFltb y x.
Definition lt (x y : number) : bool := SFltb x y.

(** *** StringToNumber *)

Definition code (c : ascii) : N := N_of_ascii c.

Definition is_digit (c : ascii) : bool := (48 <=? code c) && (code c <=? 57).

Definition digit_of (c : ascii) : option N :=
  let n := code c in
  if (48 <=? n) && (n <=? 57) then Some (n - 48)
  else if (97 <=? n) && (n <=? 102) then Some (n - 87)
  else if (65 <=? n) && (n <=? 70) then Some (n - 55)
  else None.

(** WhiteSpace and LineTerminator code points, as UTF-8 byte sequences. *)
Definition white_space : list (list N) :=
  [ [9]; [10]; [11]; [12]; [13]; [32];
    [194; 160];
    [225; 154; 128];
    [226; 128; 128]; [226; 128; 129]; [226; 128; 130]; [226; 128; 131];
    [226; 128; 132]; [226; 128; 133]; [226; 128; 134]; [226; 128; 135];
    [226; 128; 136]; [226; 128; 137]; [226; 128; 138];
    [226; 128; 168]; [226; 128; 169]; [226; 128; 175];
    [226; 129; 159];
    [227; 128; 128];
    [239; 187; 191] ].

Fixpoint strip_token (tok : list N) (l : list ascii) : option (list ascii) :=
  match tok, l with
  | [], _ => Some l
  | t :: tok', c :: l' => if code c =? t then strip_token tok' l' else None
  | _ :: _, [] => None
  end.

Fixpoint strip_any (toks : list (list N)) (l : list ascii) : option (list ascii) :=
  match toks with
  | [] => None
  | tok :: toks' =>
      match strip_token tok l with
      | Some l' => Some l'
      | None => strip_any toks' l
      end
  end.

Fixpoint trim_start_fuel (toks : list (list N)) (fuel : nat) (l : list ascii) : list ascii :=
  match fuel with
  | O => l
  | S fuel' =>
      match strip_any toks l with
      | Some l' => trim_start_fuel toks fuel' l'
      | None => l
      end
  end.

Definition trim_start (l : list ascii) : list ascii :=
  trim_start_fuel white_space (length l) l.

Definition trim_end (l : list ascii) : list ascii :=
  rev (trim_start_fuel (map (@rev N) white_space) (length l) (rev l)).

Definition trim (l : list ascii) : list ascii := trim_end (trim_start l).

Fixpoint take_digits (l : list ascii) : list N * list ascii :=
  match l with
  | c :: l' =>
      if is_digit c
      then let '(ds, rest) := take_digits l' in (code c - 48 :: ds, rest)
      else ([], l)
  | [] => ([], [])
  end.

Definition digits_value (base : N) (ds : list N) : N :=
  fold_left (fun acc d => acc * base + d) ds 0.

(** All of [l] as digits of the given radix. *)
Fixpoint radix_digits (base : N) (l : list ascii) : option (list N) :=
  match l with
  | [] => Some []
  | c :: l' =>
      match digit_of c with
      | Some d =>
          if d <? base
          then match radix_digits base l' with
               | Some ds => Some (d :: ds)
               | None => None
               end
          else None
      | None => None
      end
  end.

(** The MV of a decimal literal, [m * 10 ^ e], rounded to nearest, ties to
    even. *)
Definition of_decimal (neg : bool) (m : N) (e : Z) : number :=
  match m with
  | N0 => S754_zero neg
  | Npos p =>
      if (0 <=? e)%Z
      then match (Z.pos p * 10 ^ e)%Z with
           | Zpos q => binary_round prec emax neg q 0
           | _ => S754_zero neg
           end
      else SFdiv prec emax
             (S754_finite neg p 0)
             (S754_finite false (Z.to_pos (10 ^ (- e))) 0)
  end.

(** ExponentPart, or nothing, up to the end of the literal. *)
Definition parse_exponent (l : list ascii) : option Z :=
  match l with
  | [] => Some 0%Z
  | c :: l' =>
      if (code c =? 101) || (code c =? 69)
      then
        let '(neg, l'') :=
          match l' with
          | s :: r =>
              if code s =? 43 then (false, r)
              else if code s =? 45 then (true, r)
              else (false, l')
          | [] => (false, l')
          end in
        match take_digits l'' with
        | ((_ :: _) as ds, []) =>
            let v := Z.of_N (digits_value 10 ds) in
            Some (if neg then (- v)%Z else v)
        | _ => None
        end
      else None
  end.

(** StrUnsignedDecimalLiteral other than [Infinity]: mantissa digits and
    decimal exponent. *)
Definition parse_unsigned_decimal (l : list ascii) : option (N * Z) :=
  let '(ip, r1) := take_digits l in
  let '(fp, r2) :=
    match r1 with
    | c :: r => if code c =? 46 then take_digits r else ([], r1)
    | [] => ([], r1)
    end in
  match ip ++ fp with
  | [] => None
  | ds =>
      match parse_exponent r2 with
      | Some e => Some (digits_value 10 ds, (e - Z.of_nat (length fp))%Z)
      | None => None
      end
  end.

Definition parse_str_decimal (neg : bool) (l : list ascii) : number :=
  if String.eqb (string_of_list_ascii l) "Infinity" then S754_infinity neg
  else match parse_unsigned_decimal l with
       | Some (m, e) => of_decimal neg m e
       | None => NaN
       end.

(** NonDecimalIntegerLiteral: [0x], [0o], [0b] and at least one digit. *)
Definition parse_non_decimal (l : list ascii) : option number :=
  match l with
  | z :: p :: _ :: _ =>
      let base : option N :=
        if negb (code z =? 48) then None
        else if (code p =? 120) || (code p =? 88) then Some 16
        else if (code p =? 111) || (code p =? 79) then Some 8
        else if (code p =? 98) || (code p =? 66) then Some 2
        else None in
      match base with
      | Some b =>
          Some match radix_digits b (tl (tl l)) with
               | Some ds' => of_decimal false (digits_value b ds') 0
               | None => NaN
               end
      | None => None
      end
  | _ => None
  end.

Definition StringToNumber (s : string) : number :=
  match trim (list_ascii_of_string s) with
  | [] => zero
  | (c :: r) as l =>
      match parse_non_decimal l with
      | Some x => x
      | None =>
          if code c =? 43 then parse_str_decimal false r
          else if code c =? 45 then parse_str_decimal true r
          else parse_str_decimal false l
      end
  end.

(** [Number(v)] for a form field. *)
Definition Number (v : value) : number :=
  match v with
  | undefined => NaN
  | str s => StringToNumber s
  end.

End JS.

(** ** Text helpers: hexadecimal rendering *)

Module Hex.

Definition digit (d : N) : ascii :=
  if d <? 10 then ascii_of_N (48 + d) else ascii_of_N (87 + d).

(** The [n] least significant hexadecimal digits of [x], most significant
    first, in lower case. *)
Fixpoint digits (n : nat) (x : N) : list ascii :=
  match n with
  | O => []
  | S n' => digits n' (x / 16) ++ [digit (x mod 16)]
  end.

Definition of_N (n : nat) (x : N) : string := string_of_list_ascii (digits n x).

(** [buf.toString('hex')] *)
Definition of_bytes (buf : list Byte.byte) : string :=
  string_of_list_ascii (flat_map (fun b => digits 2 (Byte.to_N b)) buf).

End Hex.

(** ** [path.extname] (POSIX flavour) *)

Module Path.

Definition is_slash (c : ascii) : bool := JS.code c =? 47.
Definition is_dot (c : ascii) : bool := JS.code c =? 46.

Fixpoint take_until (p : ascii -> bool) (l : list ascii) : list ascii :=
  match l with
  | c :: l' => if p c then [] else c :: take_until p l'
  | [] => []
  end.

Fixpoint drop_while (p : ascii -> bool) (l : list ascii) : list ascii :=
  match l with
  | c :: l' => if p c then drop_while p l' else l
  | [] => []
  end.

(** The last path segment, trailing slashes ignored. *)
Definition last_segment (l : list ascii) : list ascii :=
  rev (take_until is_slash (drop_while is_slash (rev l))).

(** From the last dot of the last segment to its end; empty when there is
    no dot, when the only dot is the first character, or when the segment
    is [..]. *)
Definition extname (path : string) : string :=
  let seg := last_segment (list_ascii_of_string path) in
  let after := take_until is_dot (rev seg) in
  let startDot := (length seg - length after - 1)%nat in
  if (length after =? length seg)%nat then ""
  else if (startDot =? 0)%nat then ""
  else if match seg with c :: _ => is_dot c | [] => false end
          && (length after =? 0)%nat && (startDot =? 1)%nat then ""
  else string_of_list_ascii ("."%char :: rev after).

End Path.

(** ** BSON object identifiers *)

Module Bson.

(** Twelve bytes, read as one big-endian number. *)
Definition ObjectId : Type := N.

(** [new ObjectId(s)] for a string, as in bson 5 and later: exactly 24
    hexadecimal digits, or the constructor throws. *)
Definition parse (s : string) : option ObjectId :=
  let l := list_ascii_of_string s in
  if (length l =? 24)%nat
  then match JS.radix_digits 16 l with
       | Some ds => Some (JS.digits_value 16 ds)
       | None => None
       end
  else None.

Definition toHexString (id : ObjectId) : string := Hex.of_N 24 id.

End Bson.

(** ** Errors thrown or rejected by the libraries *)

Module Err.

Definition quote : string := String (ascii_of_N 34) "".
Definition backtick : string := String (ascii_of_N 96) "".

Inductive t : Type :=
| ValidationError (model : string) (paths : list string)
| CastError (kind value path model : string)
| MongoServerError (msg : string)
| MongoRuntimeError (msg : string)
| MulterError (code msg : string).

Definition required_message (path : string) : string :=
  path ++ ": Path " ++ backtick ++ path ++ backtick ++ " is required.".

Fixpoint join (sep : string) (l : list string) : string :=
  match l with
  | [] => ""
  | [x] => x
  | x :: l' => x ++ sep ++ join sep l'
  end.

(** [err.message] *)
Definition message (e : t) : string :=
  match e with
  | ValidationError model paths =>
      model ++ " validation failed: " ++ join ", " (map required_message paths)
  | CastError kind value path model =>
      "Cast to " ++ kind ++ " failed for value " ++ quote ++ value ++ quote
      ++ " (type string) at path " ++ quote ++ path ++ quote
      ++ " for model " ++ quote ++ model ++ quote
  | MongoServerError msg => msg
  | MongoRuntimeError msg => msg
  | MulterError _ msg => msg
  end.

End Err.

(** ** The outside world during one request *)

Module Env.

(** Driver calls made by the routes. *)
Inductive op : Type :=
| GridFSUpload
| GridFSDownload
| GridFSDelete
| PdfSave
| PdfFind
| PdfFindById
| PdfFindByIdAndDelete.

Record t : Type := {
  now : Z;                         (* Date.now(), milliseconds *)
  randomBytes : list Byte.byte;    (* crypto.randomBytes(16) *)
  uploadStreamId : Bson.ObjectId;  (* id minted by openUploadStream *)
  newPdfId : Bson.ObjectId;        (* _id minted by new Pdf(...) *)
  failure : op -> option string;   (* the call fails with this message *)
  written : nat                    (* chunk inserts done before a failing upload *)
}.

End Env.

(** ** Documents of the [pdfs] collection ([pdfSchema]) *)

Module Pdf.

Record t : Type := {
  _id : Bson.ObjectId;
  title : JS.value;
  author : string;
  price : JS.number;
  category : JS.value;
  description : JS.value;
  fileId : Bson.ObjectId;
  fileName : string;
  createdAt : Z;
  locked : bool
}.

End Pdf.

(** ** The MongoDB database behind the connection *)

Module Mongo.

(** A document of [uploads.files]. *)
Record file_doc : Type := {
  file_length : N;
  file_chunkSize : N;
  file_uploadDate : Z;
  file_filename : string;
  file_contentType : string
}.

(** The three collections; each is keyed by its unique index: [_id] for
    [pdfs] and [uploads.files], [(files_id, n)] for [uploads.chunks]. *)
Record db : Type := {
  pdfs : gmap Bson.ObjectId Pdf.t;
  files : gmap Bson.ObjectId file_doc;
  chunks : gmap (Bson.ObjectId * N) (list Byte.byte)
}.

Definition empty : db := {| pdfs := ∅; files := ∅; chunks := ∅ |}.

Definition with_pdfs (d : db) (m : gmap Bson.ObjectId Pdf.t) : db :=
  {| pdfs := m; files := files d; chunks := chunks d |}.

Definition duplicate_key : Err.t :=
  Err.MongoServerError "E11000 duplicate key error".

End Mongo.

(** ** [GridFSBucket] of the MongoDB driver *)

Module GridFS.

(** The handle built in the [open] callback; only [bucketName] is passed,
    so the chunk size is the driver's default of 255 KiB. *)
Record bucket : Type := { bucketName : string }.

Definition chunkSizeBytes (b : bucket) : N := 255 * 1024.

(** Cut a buffer into pieces of [size] bytes, the last one possibly
    shorter. *)
Fixpoint slice_fuel (fuel size : nat) (buf : list Byte.byte) : list (list Byte.byte) :=
  match fuel with
  | O => []
  | S fuel' =>
      match buf with
      | [] => []
      | _ :: _ => take size buf :: slice_fuel fuel' size (drop size buf)
      end
  end.

Definition slice (size : nat) (buf : list Byte.byte) : list (list Byte.byte) :=
  slice_fuel (length buf) size buf.

(** Insert the chunk documents one after the other, numbered from [n].
    [budget] is the number of inserts the store still accepts when the
    upload is going to fail, [None] when it is not. *)
Fixpoint insert_chunks (id : Bson.ObjectId) (n : N) (cs : list (list Byte.byte))
    (budget : option nat) (coll : gmap (Bson.ObjectId * N) (list Byte.byte))
    : option Err.t * gmap (Bson.ObjectId * N) (list Byte.byte) :=
  match cs with
  | [] => (None, coll)
  | c :: cs' =>
      match budget with
      | Some O => (Some (Err.MongoServerError "chunk insert failed"), coll)
      | _ =>
          match coll !! (id, n) with
          | Some _ => (Some Mongo.duplicate_key, coll)
          | None =>
              insert_chunks id (n + 1) cs' (Nat.pred <$> budget) (<[(id, n) := c]> coll)
          end
      end
  end.

(** [openUploadStream(filename, {contentType})] followed by
    [uploadStream.end(buffer)], up to the [finish] or [error] event.  The
    [files] document is written last, after every chunk. *)
Definition upload (b : bucket) (filename contentType : string)
    (buffer : list Byte.byte) (env : Env.t) (d : Mongo.db)
    : option Err.t * Mongo.db :=
  let id := Env.uploadStreamId env in
  let cs := slice (N.to_nat (chunkSizeBytes b)) buffer in
  match Env.failure env Env.GridFSUpload with
  | Some msg =>
      let '(_, coll) := insert_chunks id 0 cs (Some (Env.written env)) (Mongo.chunks d) in
      (Some (Err.MongoServerError msg),
       {| Mongo.pdfs := Mongo.pdfs d; Mongo.files := Mongo.files d; Mongo.chunks := coll |})
  | None =>
      match insert_chunks id 0 cs None (Mongo.chunks d) with
      | (Some e, coll) =>
          (Some e,
           {| Mongo.pdfs := Mongo.pdfs d; Mongo.files := Mongo.files d; Mongo.chunks := coll |})
      | (None, coll) =>
          match Mongo.files d !! id with
          | Some _ =>
              (Some Mongo.duplicate_key,
               {| Mongo.pdfs := Mongo.pdfs d; Mongo.files := Mongo.files d;
                  Mongo.chunks := coll |})
          | None =>
              let doc :=
                {| Mongo.file_length := N.of_nat (length buffer);
                   Mongo.file_chunkSize := chunkSizeBytes b;
                   Mongo.file_uploadDate := Env.now env;
                   Mongo.file_filename := filename;
                   Mongo.file_contentType := contentType |} in
              (None,
               {| Mongo.pdfs := Mongo.pdfs d;
                  Mongo.files := <[id := doc]> (Mongo.files d);
                  Mongo.chunks := coll |})
          end
      end
  end.

(** The chunks [n], [n+1], ... of a file as the download stream emits them:
    it stops with an error at the first chunk that is missing or has the
    wrong size. *)
Fixpoint read_chunks (count : nat) (id : Bson.ObjectId) (n remaining size : N)
    (coll : gmap (Bson.ObjectId * N) (list Byte.byte))
    : list (list Byte.byte) * option Err.t :=
  match count with
  | O => ([], None)
  | S count' =>
      match coll !! (id, n) with
      | None => ([], Some (Err.MongoRuntimeError "ChunkIsMissing"))
      | Some data =>
          if N.of_nat (length data) =? N.min size remaining
          then
            let '(rest, e) :=
              read_chunks count' id (n + 1) (remaining - N.min size remaining) size coll in
            (data :: rest, e)
          else ([], Some (Err.MongoRuntimeError "ChunkIsWrongSize"))
      end
  end.

Definition chunk_count (len size : N) : N :=
  if size =? 0 then 0 else (len + size - 1) / size.

(** [openDownloadStream(id)] read to its end: the data events in order,
    then either the end of the stream or an error event. *)
Definition download (b : bucket) (id : Bson.ObjectId) (env : Env.t) (d : Mongo.db)
    : list (list Byte.byte) * option Err.t :=
  match Env.failure env Env.GridFSDownload with
  | Some msg => ([], Some (Err.MongoServerError msg))
  | None =>
      match Mongo.files d !! id with
      | None =>
          ([], Some (Err.MongoRuntimeError
                       ("FileNotFound: file " ++ Bson.toHexString id ++ " was not found")))
      | Some doc =>
          read_chunks
            (N.to_nat (chunk_count (Mongo.file_length doc) (Mongo.file_chunkSize doc)))
            id 0 (Mongo.file_length doc) (Mongo.file_chunkSize doc) (Mongo.chunks d)
      end
  end.

(** [bucket.delete(id)]: removes the [files] document, then every chunk of
    that file, and only then rejects when there was no [files] document. *)
Definition delete (b : bucket) (id : Bson.ObjectId) (env : Env.t) (d : Mongo.db)
    : option Err.t * Mongo.db :=
  match Env.failure env Env.GridFSDelete with
  | Some msg => (Some (Err.MongoServerError msg), d)
  | None =>
      let d' :=
        {| Mongo.pdfs := Mongo.pdfs d;
           Mongo.files := base.delete id (Mongo.files d);
           Mongo.chunks := filter (fun kv => fst (fst kv) ≠ id) (Mongo.chunks d) |} in
      match Mongo.files d !! id with
      | Some _ => (None, d')
      | None =>
          (Some (Err.MongoRuntimeError ("File not found for id " ++ Bson.toHexString id)), d')
      end
  end.

End GridFS.

(** ** The Mongoose model [Pdf] *)

Module Mongoose.

Inductive schema_type : Type := SString | SNumber | SObjectId | SDate | SBoolean.

Record schema_path : Type := {
  path : string;
  type : schema_type;
  required : bool
}.

(** [pdfSchema]; the defaults of [price] and [locked] never apply because
    the upload route passes both, the default of [createdAt] always does. *)
Definition pdfSchema : list schema_path :=
  [ {| path := "title"; type := SString; required := true |};
    {| path := "author"; type := SString; required := false |};
    {| path := "price"; type := SNumber; required := false |};
    {| path := "category"; type := SString; required := true |};
    {| path := "description"; type := SString; required := false |};
    {| path := "fileId"; type := SObjectId; required := true |};
    {| path := "fileName"; type := SString; required := false |};
    {| path := "createdAt"; type := SDate; required := false |};
    {| path := "locked"; type := SBoolean; required := false |} ].

(** The [required] validator: a string path must hold a non-empty string,
    an ObjectId path an ObjectId. *)
Definition checkRequired (doc : Pdf.t) (p : string) : bool :=
  if String.eqb p "title" then JS.truthy (Pdf.title doc)
  else if String.eqb p "category" then JS.truthy (Pdf.category doc)
  else true.

(** The paths that fail validation, in schema order. *)
Definition validate (doc : Pdf.t) : list string :=
  map path
    (List.filter (fun p => required p && negb (checkRequired doc (path p))) pdfSchema).

(** The fields the route passes to [new Pdf({...})]. *)
Record fields : Type := {
  f_title : JS.value;
  f_author : string;
  f_price : JS.number;
  f_category : JS.value;
  f_description : JS.value;
  f_fileId : Bson.ObjectId;
  f_fileName : string;
  f_locked : bool
}.

Definition new_Pdf (env : Env.t) (f : fields) : Pdf.t :=
  {| Pdf._id := Env.newPdfId env;
     Pdf.title := f_title f;
     Pdf.author := f_author f;
     Pdf.price := f_price f;
     Pdf.category := f_category f;
     Pdf.description := f_description f;
     Pdf.fileId := f_fileId f;
     Pdf.fileName := f_fileName f;
     Pdf.createdAt := Env.now env;
     Pdf.locked := f_locked f |}.

(** [doc.save()]: validation first, then the insert. *)
Definition save (doc : Pdf.t) (env : Env.t) (d : Mongo.db) : (Err.t + Pdf.t) * Mongo.db :=
  match validate doc with
  | _ :: _ => (inl (Err.ValidationError "Pdf" (validate doc)), d)
  | [] =>
      match Env.failure env Env.PdfSave with
      | Some msg => (inl (Err.MongoServerError msg), d)
      | None =>
          match Mongo.pdfs d !! Pdf._id doc with
          | Some _ => (inl Mongo.duplicate_key, d)
          | None => (inr doc, Mongo.with_pdfs d (<[Pdf._id doc := doc]> (Mongo.pdfs d)))
          end
      end
  end.

(** The order of [sort({ createdAt: -1 })]. *)
Definition newer_first (a b : Pdf.t) : Prop := (Pdf.createdAt b <= Pdf.createdAt a)%Z.

#[global] Instance newer_first_dec a b : Decision (newer_first a b).
Proof. unfold newer_first. apply _. Defined.

(** [Pdf.find().sort({ createdAt: -1 })] *)
Definition find_sorted (env : Env.t) (d : Mongo.db) : Err.t + list Pdf.t :=
  match Env.failure env Env.PdfFind with
  | Some msg => inl (Err.MongoServerError msg)
  | None => inr (merge_sort newer_first (snd <$> map_to_list (Mongo.pdfs d)))
  end.

Definition castObjectId (id : string) : Err.t + Bson.ObjectId :=
  match Bson.parse id with
  | Some oid => inr oid
  | None => inl (Err.CastError "ObjectId" id "_id" "Pdf")
  end.

(** [Pdf.findById(id)] *)
Definition findById (id : string) (env : Env.t) (d : Mongo.db) : Err.t + option Pdf.t :=
  match castObjectId id with
  | inl e => inl e
  | inr oid =>
      match Env.failure env Env.PdfFindById with
      | Some msg => inl (Err.MongoServerError msg)
      | None => inr (Mongo.pdfs d !! oid)
      end
  end.

(** [Pdf.findByIdAndDelete(id)] *)
Definition findByIdAndDelete (id : string) (env : Env.t) (d : Mongo.db)
    : (Err.t + option Pdf.t) * Mongo.db :=
  match castObjectId id with
  | inl e => (inl e, d)
  | inr oid =>
      match Env.failure env Env.PdfFindByIdAndDelete with
      | Some msg => (inl (Err.MongoServerError msg), d)
      | None =>
          (inr (Mongo.pdfs d !! oid), Mongo.with_pdfs d (base.delete oid (Mongo.pdfs d)))
      end
  end.

(** Model calls made while the connection has not opened are buffered, and
    rejected when still buffered after [bufferTimeoutMS] (10 seconds). *)
Definition buffering_timed_out (o : Env.op) : option string :=
  let msg name :=
    ("Operation " ++ Err.backtick ++ name ++ Err.backtick
     ++ " buffering timed out after 10000ms")%string in
  match o with
  | Env.PdfSave => Some (msg "pdfs.insertOne()")
  | Env.PdfFind => Some (msg "pdfs.find()")
  | Env.PdfFindById => Some (msg "pdfs.findOne()")
  | Env.PdfFindByIdAndDelete => Some (msg "pdfs.findOneAndDelete()")
  | Env.GridFSUpload | Env.GridFSDownload | Env.GridFSDelete => None
  end.

(** The outside world as a handler meets it when the connection never
    opens. *)
Definition never_connected (env : Env.t) : Env.t :=
  {| Env.now := Env.now env;
     Env.randomBytes := Env.randomBytes env;
     Env.uploadStreamId := Env.uploadStreamId env;
     Env.newPdfId := Env.newPdfId env;
     Env.failure :=
       fun o => match buffering_timed_out o with
                | Some msg => Some msg
                | None => Env.failure env o
                end;
     Env.written := Env.written env |}.

End Mongoose.

(** ** multer with [memoryStorage] and a 20 MB file size limit *)

Module Multer.

(** The file part of the multipart body as it arrives: a stream of
    pieces. *)
Record part : Type := {
  part_filename : string;
  part_mimetype : string;
  part_stream : list (list Byte.byte)
}.

(** [req.file] *)
Record file : Type := {
  originalname : string;
  mimetype : string;
  buffer : list Byte.byte
}.

Definition fileSize : N := 20 * 1024 * 1024.

(** [memoryStorage]: every piece of the stream is appended to one buffer,
    which is handed over when the stream ends. *)
Definition memoryStorage (p : part) : file :=
  {| originalname := part_filename p;
     mimetype := part_mimetype p;
     buffer := concat (part_stream p) |}.

(** [upload.single('file')]: [req.file] is left undefined when the form
    has no file part; a part longer than the limit aborts the request. *)
Definition single (p : option part) : Err.t + option file :=
  match p with
  | None => inr None
  | Some p =>
      if fileSize <? N.of_nat (length (concat (part_stream p)))
      then inl (Err.MulterError "LIMIT_FILE_SIZE" "File too large")
      else inr (Some (memoryStorage p))
  end.

End Multer.

(** ** The Express application *)

Module Server.

Inductive level : Type := Log | Warn | Error.

(** [gridfsBucket] is the module-level variable, undefined until the
    connection opens; [console] collects what the process prints. *)
Record state : Type := {
  gridfsBucket : option GridFS.bucket;
  db : Mongo.db;
  console : list (level * string)
}.

Definition init (d : Mongo.db) : state :=
  {| gridfsBucket := None; db := d; console := [] |}.

Definition say (l : level) (msg : string) (st : state) : state :=
  {| gridfsBucket := gridfsBucket st; db := db st; console := console st ++ [(l, msg)] |}.

Definition with_db (st : state) (d : Mongo.db) : state :=
  {| gridfsBucket := gridfsBucket st; db := d; console := console st |}.

(** Response bodies: the JSON objects the routes build, or the piped
    download.  [ended] is false when the download stream failed after some
    data had already been sent. *)
Inductive body : Type :=
| Json_error (error : string)
| Json_error_details (error details : string)
| Json_message (message : string)
| Json_pdf (doc : Pdf.t)
| Json_pdfs (docs : list Pdf.t)
| Stream (contentType : string) (data : list (list Byte.byte)) (ended : bool).

Record response : Type := { status : N; content : body }.

(** Form fields read from [req.body]. *)
Record form : Type := {
  title : JS.value;
  author : JS.value;
  price : JS.value;
  category : JS.value;
  description : JS.value
}.

(** The upload request before and after [upload.single('file')]. *)
Record upload : Type := { file_part : option Multer.part; fields : form }.
Record request : Type := { file : option Multer.file; body_of : form }.

Definition show (v : JS.value) : string :=
  match v with
  | JS.undefined => "undefined"
  | JS.str s => s
  end.

(** [conn.once('open', ...)] *)
Definition on_open (st : state) : state :=
  match gridfsBucket st with
  | Some _ => st
  | None =>
      say Log "📦 GridFS System Ready"
        {| gridfsBucket := Some {| GridFS.bucketName := "uploads" |};
           db := db st; console := console st |}
  end.

(** The [catch] block of the upload route.  Of the error object printed by
    [console.error] the console keeps the message. *)
Definition upload_failure (err : Err.t) (st : state) : response * state :=
  ({| status := 500;
      content := Json_error_details "Failed to process PDF upload" (Err.message err) |},
   say Error ("❌ Upload Workflow Failure: " ++ Err.message err) st).

(** The handler of [POST /api/pdfs]. *)
Definition post_pdfs (req : request) (env : Env.t) (st : state) : response * state :=
  let st := say Log "⚡ Received upload request" st in
  match file req with
  | None => ({| status := 400; content := Json_error "No file uploaded" |}, st)
  | Some f =>
      match gridfsBucket st with
      | None => ({| status := 503; content := Json_error "Database/GridFS not ready" |}, st)
      | Some bucket =>
          let b := body_of req in
          let filename :=
            (Hex.of_bytes (Env.randomBytes env) ++ Path.extname (Multer.originalname f))%string in
          let fileId := Env.uploadStreamId env in
          match GridFS.upload bucket filename (Multer.mimetype f) (Multer.buffer f) env (db st) with
          | (Some err, d1) => upload_failure err (with_db st d1)
          | (None, d1) =>
              let st :=
                say Log ("📤 File uploaded to GridFS: " ++ Bson.toHexString fileId)
                  (with_db st d1) in
              let newPdf :=
                Mongoose.new_Pdf env
                  {| Mongoose.f_title := title b;
                     Mongoose.f_author := JS.or_string (author b) "Unknown";
                     Mongoose.f_price := JS.or_number (JS.Number (price b)) JS.zero;
                     Mongoose.f_category := category b;
                     Mongoose.f_description := description b;
                     Mongoose.f_fileId := fileId;
                     Mongoose.f_fileName := Multer.originalname f;
                     Mongoose.f_locked :=
                       JS.gt (JS.or_number (JS.Number (price b)) JS.zero) JS.zero |} in
              match Mongoose.save newPdf env (db st) with
              | (inl err, d2) => upload_failure err (with_db st d2)
              | (inr savedPdf, d2) =>
                  ({| status := 201; content := Json_pdf savedPdf |},
                   say Log ("✅ PDF Metadata saved: " ++ show (Pdf.title savedPdf))
                     (with_db st d2))
              end
          end
      end
  end.

(** The last [app.use]: errors passed on by a middleware. *)
Definition global_error_handler (err : Err.t) (st : state) : response * state :=
  ({| status := 500;
      content := Json_error_details "An internal server error occurred" (Err.message err) |},
   say Error ("🔥 GLOBAL SERVER ERROR: " ++ Err.message err) st).

(** [POST /api/pdfs]: multer, then the handler. *)
Definition route_post_pdfs (u : upload) (env : Env.t) (st : state) : response * state :=
  match Multer.single (file_part u) with
  | inl err => global_error_handler err st
  | inr f => post_pdfs {| file := f; body_of := fields u |} env st
  end.

(** [GET /api/pdfs] *)
Definition get_pdfs (env : Env.t) (st : state) : response * state :=
  match Mongoose.find_sorted env (db st) with
  | inr pdfs => ({| status := 200; content := Json_pdfs pdfs |}, st)
  | inl _ => ({| status := 500; content := Json_error "Failed to fetch PDFs" |}, st)
  end.

(** What Node prints when the error listener of the file route throws. *)
Definition uncaught_headers_sent : string :=
  "Uncaught Error [ERR_HTTP_HEADERS_SENT]: Cannot set headers after they are sent to the client".

(** [GET /api/pdfs/file/:id].  The listener of the download's [error] event
    always calls [res.status(404).json(...)].  Before any data that answers
    404.  After data has been piped the headers are out, the call throws
    outside the [try], nothing catches it, and the process exits with the
    200 response cut short. *)
Definition get_file (id : string) (env : Env.t) (st : state) : response * state :=
  match gridfsBucket st with
  | None => ({| status := 503; content := Json_error "Stream engine not ready" |}, st)
  | Some bucket =>
      match Bson.parse id with
      | None => ({| status := 500; content := Json_error "Invalid document ID" |}, st)
      | Some fileId =>
          match GridFS.download bucket fileId env (db st) with
          | ([], Some _) =>
              ({| status := 404; content := Json_error "Document content not found" |}, st)
          | (data, None) =>
              ({| status := 200; content := Stream "application/pdf" data true |}, st)
          | (data, Some _) =>
              ({| status := 200; content := Stream "application/pdf" data false |},
               say Error uncaught_headers_sent st)
          end
      end
  end.

(** The best-effort file cleanup inside the delete route. *)
Definition cleanup (pdf : Pdf.t) (env : Env.t) (st : state) : state :=
  match gridfsBucket st with
  | Some bucket =>
      match GridFS.delete bucket (Pdf.fileId pdf) env (db st) with
      | (None, d) => with_db st d
      | (Some err, d) =>
          say Warn ("⚠️ File cleanup warning: " ++ Err.message err) (with_db st d)
      end
  | None => st
  end.

(** [DELETE /api/pdfs/:id] *)
Definition delete_pdf (id : string) (env : Env.t) (st : state) : response * state :=
  let failed := {| status := 500; content := Json_error "Failed to delete PDF" |} in
  match Mongoose.findById id env (db st) with
  | inl _ => (failed, st)
  | inr None => ({| status := 404; content := Json_error "PDF not found" |}, st)
  | inr (Some pdf) =>
      let st := cleanup pdf env st in
      match Mongoose.findByIdAndDelete id env (db st) with
      | (inl _, d) => (failed, with_db st d)
      | (inr _, d) =>
          ({| status := 200; content := Json_message "PDF deleted successfully" |},
           with_db st d)
      end
  end.

(** The response after which the process is gone. *)
Definition exits (r : response) : bool :=
  match content r with
  | Stream _ _ false => true
  | _ => false
  end.

(** [gridfsBucket] is assigned by the listener of the connection's first
    [open] and never again, so it is undefined exactly as long as the
    connection has not opened; a handler that runs then finds its model
    calls timed out. *)
Definition env_at (st : state) (env : Env.t) : Env.t :=
  match gridfsBucket st with
  | Some _ => env
  | None => Mongoose.never_connected env
  end.

(** What can happen to the server, and the run of a sequence of events: it
    ends with the list, or with the response on which the process exits. *)
Inductive event : Type :=
| Open
| PostPdfs (u : upload) (env : Env.t)
| GetPdfs (env : Env.t)
| GetFile (id : string) (env : Env.t)
| DeletePdf (id : string) (env : Env.t).

Definition step (e : event) (st : state) : option response * state :=
  match e with
  | Open => (None, on_open st)
  | PostPdfs u env =>
      let '(r, st') := route_post_pdfs u (env_at st env) st in (Some r, st')
  | GetPdfs env => let '(r, st') := get_pdfs (env_at st env) st in (Some r, st')
  | GetFile id env => let '(r, st') := get_file id (env_at st env) st in (Some r, st')
  | DeletePdf id env => let '(r, st') := delete_pdf id (env_at st env) st in (Some r, st')
  end.

Fixpoint run (es : list event) (st : state) : state :=
  match es with
  | [] => st
  | e :: es' =>
      match step e st with
      | (Some r, st') => if exits r then st' else run es' st'
      | (None, st') => run es' st'
      end
  end.

End Server.

(** ** Notions used in the statements *)

(** The same server over another content of the [pdfs] collection. *)
Definition with_catalog (st : Server.state) (m : gmap Bson.ObjectId Pdf.t) : Server.state :=
  Server.with_db st (Mongo.with_pdfs (Server.db st) m).

(** What [Number(price) || 0] can be: 0, or a number that is neither zero
    nor NaN. *)
Definition price_normalized (x : JS.number) : Prop :=
  x = JS.zero ∨ JS.truthy_number x = true.

Definition prices_normalized (d : Mongo.db) : Prop :=
  ∀ id doc, Mongo.pdfs d !! id = Some doc → price_normalized (Pdf.price doc).

(** The bucket handle the [open] callback creates. *)
Definition uploads : GridFS.bucket := {| GridFS.bucketName := "uploads" |}.

(** The name under which the upload route stores a file in the bucket. *)
Definition storage_name (env : Env.t) (f : Multer.file) : string :=
  (Hex.of_bytes (Env.randomBytes env) ++ Path.extname (Multer.originalname f))%string.

(** The document the upload route passes to [save]. *)
Definition new_record (env : Env.t) (f : Multer.file) (b : Server.form) : Pdf.t :=
  Mongoose.new_Pdf env
    {| Mongoose.f_title := Server.title b;
       Mongoose.f_author := JS.or_string (Server.author b) "Unknown";
       Mongoose.f_price := JS.or_number (JS.Number (Server.price b)) JS.zero;
       Mongoose.f_category := Server.category b;
       Mongoose.f_description := Server.description b;
       Mongoose.f_fileId := Env.uploadStreamId env;
       Mongoose.f_fileName := Multer.originalname f;
       Mongoose.f_locked :=
         JS.gt (JS.or_number (JS.Number (Server.price b)) JS.zero) JS.zero |}.

(** What the schema and the upload route guarantee of a record they
    accepted. *)
Definition record_valid (doc : Pdf.t) : Prop :=
  JS.truthy (Pdf.title doc) = true
  ∧ JS.truthy (Pdf.category doc) = true
  ∧ Pdf.author doc ≠ ""
  ∧ Pdf.locked doc = JS.gt (Pdf.price doc) JS.zero.

Definition records_valid (d : Mongo.db) : Prop :=
  ∀ id doc, Mongo.pdfs d !! id = Some doc → record_valid doc ∧ Pdf._id doc = id.

(** No chunk of the collection belongs to the file [id]. *)
Definition no_chunks_of (id : Bson.ObjectId)
    (coll : gmap (Bson.ObjectId * N) (list Byte.byte)) : Prop :=
  ∀ n, coll !! (id, n) = None.

(** ** Sample data *)

Definition quiet : Env.op -> option string := fun _ => None.

Definition env0 (file_id pdf_id : N) (t : Z) : Env.t :=
  {| Env.now := t; Env.randomBytes := repeat Byte.x2a 16;
     Env.uploadStreamId := file_id; Env.newPdfId := pdf_id;
     Env.failure := quiet; Env.written := 0 |}.

Definition one_byte : Multer.part :=
  {| Multer.part_filename := "a.pdf"; Multer.part_mimetype := "application/pdf";
     Multer.part_stream := [[Byte.x25]] |}.

Definition form0 (t c : string) (p : JS.value) : Server.form :=
  {| Server.title := JS.str t; Server.author := JS.undefined; Server.price := p;
     Server.category := JS.str c; Server.description := JS.undefined |}.

Definition upload0 (p : JS.value) : Server.upload :=
  {| Server.file_part := Some one_byte; Server.fields := form0 "A" "B" p |}.

Definition hex24 (id : N) : string := Bson.toHexString id.

(** The server once the connection is open and one one-byte PDF has been
    uploaded with the given price: blob 1, metadata record 2. *)
Definition after_upload (p : JS.value) : Server.state :=
  Server.run [Server.Open; Server.PostPdfs (upload0 p) (env0 1 2 1000)]
    (Server.init Mongo.empty).

Definition env_write_fails : Env.t :=
  {| Env.now := 1000; Env.randomBytes := repeat Byte.x2a 16;
     Env.uploadStreamId := 1; Env.newPdfId := 2;
     Env.failure := fun o => match o with Env.GridFSUpload => Some "socket closed" | _ => None end;
     Env.written := 0 |}.

Definition form_without_title : Server.form :=
  {| Server.title := JS.undefined; Server.author := JS.undefined;
     Server.price := JS.str "15"; Server.category := JS.str "B";
     Server.description := JS.undefined |}.

Definition env_cleanup_fails : Env.t :=
  {| Env.now := 2000; Env.randomBytes := []; Env.uploadStreamId := 3; Env.newPdfId := 4;
     Env.failure := fun o => match o with Env.GridFSDelete => Some "not primary" | _ => None end;
     Env.written := 0 |}.

(** A process that has just been started over the database an earlier run
    left behind (record 2, blob 1): the connection has not opened yet. *)
Definition just_started : Server.state :=
  Server.init (Server.db (after_upload JS.undefined)).

(** A blob whose chunks are all there, numbered from 0, each of the chunk
    size of its [files] document but for a shorter last one. *)
Definition blob_intact (d : Mongo.db) (id : Bson.ObjectId) (doc : Mongo.file_doc) : Prop :=
  ∀ i, i < GridFS.chunk_count (Mongo.file_length doc) (Mongo.file_chunkSize doc) →
    ∃ c, Mongo.chunks d !! (id, i) = Some c
         ∧ N.of_nat (length c)
           = N.min (Mongo.file_chunkSize doc)
               (Mongo.file_length doc - i * Mongo.file_chunkSize doc).

Definition upload_without_file : Server.upload :=
  {| Server.file_part := None; Server.fields := form0 "A" "B" JS.undefined |}.

Definition record_at (id : N) (t : Z) : Pdf.t :=
  {| Pdf._id := id; Pdf.title := JS.str "A"; Pdf.author := "Unknown"; Pdf.price := JS.zero;
     Pdf.category := JS.str "B"; Pdf.description := JS.undefined; Pdf.fileId := 10 + id;
     Pdf.fileName := "a.pdf"; Pdf.createdAt := t; Pdf.locked := false |}.

Definition three_records : Server.state :=
  Server.init
    {| Mongo.pdfs := <[1 := record_at 1 100]> (<[2 := record_at 2 200]> {[3 := record_at 3 300]});
       Mongo.files := ∅; Mongo.chunks := ∅ |}.

(** A PDF of 255 KiB and one byte, arriving in two pieces. *)
Definition large_part : Multer.part :=
  {| Multer.part_filename := "big.pdf"; Multer.part_mimetype := "application/pdf";
     Multer.part_stream :=
       [repeat Byte.x25 (N.to_nat 200000); repeat Byte.x25 (N.to_nat 61121)] |}.

(** A file part of 20 MiB and one byte. *)
Definition oversize_part : Multer.part :=
  {| Multer.part_filename := "huge.pdf"; Multer.part_mimetype := "application/pdf";
     Multer.part_stream := [repeat Byte.x25 (N.to_nat 20971521)] |}.

Definition env_save_fails : Env.t :=
  {| Env.now := 1000; Env.randomBytes := repeat Byte.x2a 16;
     Env.uploadStreamId := 1; Env.newPdfId := 2;
     Env.failure := fun o => match o with Env.PdfSave => Some "not primary" | _ => None end;
     Env.written := 0 |}.

Definition env_record_delete_fails : Env.t :=
  {| Env.now := 2000; Env.randomBytes := []; Env.uploadStreamId := 3; Env.newPdfId := 4;
     Env.failure :=
       fun o => match o with Env.PdfFindByIdAndDelete => Some "not primary" | _ => None end;
     Env.written := 0 |}.

Definition request0 (p : JS.value) : Server.request :=
  {| Server.file := Some (Multer.memoryStorage one_byte);
     Server.body_of := form0 "A" "B" p |}.

(** An upload whose write fails after the first chunk went in. *)
Definition env_write_fails_late : Env.t :=
  {| Env.now := 1000; Env.randomBytes := repeat Byte.x2a 16;
     Env.uploadStreamId := 1; Env.newPdfId := 2;
     Env.failure := fun o => match o with Env.GridFSUpload => Some "socket closed" | _ => None end;
     Env.written := 1 |}.

(** An open server over a damaged bucket: blob 7 has three bytes in chunks of
    two, and its second chunk is missing. *)
Definition damaged : Server.state :=
  Server.on_open
    (Server.init
       {| Mongo.pdfs := ∅;
          Mongo.files :=
            {[ 7 := {| Mongo.file_length := 3; Mongo.file_chunkSize := 2;
                       Mongo.file_uploadDate := 0; Mongo.file_filename := "x.pdf";
                       Mongo.file_contentType := "application/pdf" |} ]};
          Mongo.chunks := {[ (7, 0) := [Byte.x25; Byte.x50] ]} |}).

(** * Properties *)

(** ** Numbers *)

Example Number_numeric :
  JS.Number (JS.str "15") = JS.of_decimal false 15 0
  ∧ JS.Number (JS.str " 12.5 ") = JS.of_decimal false 125 (-1)
  ∧ JS.Number (JS.str "-5") = JS.of_decimal true 5 0
  ∧ JS.Number (JS.str "0x1F") = JS.of_decimal false 31 0
  ∧ JS.Number (JS.str "1e400") = JS.Infinity
  ∧ JS.Number (JS.str "") = JS.zero.
Proof. vm_compute. done. Qed.

Example Number_not_numeric :
  JS.Number JS.undefined = JS.NaN
  ∧ JS.Number (JS.str "abc") = JS.NaN
  ∧ JS.Number (JS.str "12px") = JS.NaN
  ∧ JS.Number (JS.str "1e") = JS.NaN
  ∧ JS.Number (JS.str ".") = JS.NaN.
Proof. vm_compute. done. Qed.

Example extname_samples :
  Path.extname "notes.pdf" = ".pdf"
  ∧ Path.extname "archive.tar.gz" = ".gz"
  ∧ Path.extname ".bashrc" = ""
  ∧ Path.extname "README" = ""
  ∧ Path.extname "index." = ".".
Proof. vm_compute. done. Qed.

Lemma or_number_zero_cases (x : JS.number) :
  JS.or_number x JS.zero = JS.zero ∨ JS.truthy_number (JS.or_number x JS.zero) = true.
Proof.
  unfold JS.or_number. destruct (JS.truthy_number x) eqn:E; [right | left]; done.
Qed.

Lemma or_number_not_NaN (x : JS.number) : JS.or_number x JS.zero ≠ JS.NaN.
Proof. destruct x; done. Qed.

Lemma or_number_NaN : JS.or_number JS.NaN JS.zero = JS.zero.
Proof. reflexivity. Qed.

(** [x > 0] holds for the positive finite numbers and for [+Infinity]. *)
Lemma gt_zero_iff (x : JS.number) :
  JS.gt x JS.zero = true ↔
  x = JS.Infinity ∨ ∃ m e, x = S754_finite false m e.
Proof.
  split.
  - destruct x as [s | s | | s m e]; try destruct s; try done.
    + by left.
    + right. by exists m, e.
  - intros [-> | (m & e & ->)]; reflexivity.
Qed.

(** [x < 0] is kept by [x || 0]. *)
Lemma lt_zero_or_number (x : JS.number) :
  JS.lt (JS.or_number x JS.zero) JS.zero = JS.lt x JS.zero.
Proof. destruct x as [s | s | | s m e]; try destruct s; reflexivity. Qed.

(** ** [doc.save()] *)

Lemma save_inr doc env d doc' d' :
  Mongoose.save doc env d = (inr doc', d') →
  doc' = doc ∧ Mongoose.validate doc = []
  ∧ Mongo.pdfs d !! Pdf._id doc = None
  ∧ d' = Mongo.with_pdfs d (<[Pdf._id doc := doc]> (Mongo.pdfs d)).
Proof.
  unfold Mongoose.save.
  destruct (Mongoose.validate doc) eqn:V; [| done].
  destruct (Env.failure env Env.PdfSave); [done |].
  destruct (Mongo.pdfs d !! Pdf._id doc) eqn:L; [done |].
  intros [= <- <-]. done.
Qed.

Lemma save_inl doc env d e d' :
  Mongoose.save doc env d = (inl e, d') → d' = d.
Proof.
  unfold Mongoose.save.
  destruct (Mongoose.validate doc); [| by intros [= _ <-]].
  destruct (Env.failure env Env.PdfSave); [by intros [= _ <-] |].
  destruct (Mongo.pdfs d !! Pdf._id doc); [by intros [= _ <-] | done].
Qed.

(** A missing or empty [title] or [category] is reported by [validate]. *)
Lemma validate_required doc :
  JS.truthy (Pdf.title doc) = false ∨ JS.truthy (Pdf.category doc) = false →
  Mongoose.validate doc ≠ []
  ∧ (JS.truthy (Pdf.title doc) = false → "title" ∈ Mongoose.validate doc)
  ∧ (JS.truthy (Pdf.category doc) = false → "category" ∈ Mongoose.validate doc).
Proof.
  intros H. unfold Mongoose.validate, Mongoose.pdfSchema, Mongoose.checkRequired. simpl.
  destruct (JS.truthy (Pdf.title doc)), (JS.truthy (Pdf.category doc)); simpl;
    destruct H as [H | H]; try discriminate H;
    (split; [done | split; intros; try done; set_solver]).
Qed.

Lemma validate_ok doc :
  Mongoose.validate doc = [] →
  JS.truthy (Pdf.title doc) = true ∧ JS.truthy (Pdf.category doc) = true.
Proof.
  unfold Mongoose.validate, Mongoose.pdfSchema, Mongoose.checkRequired. simpl.
  destruct (JS.truthy (Pdf.title doc)), (JS.truthy (Pdf.category doc)); simpl; done.
Qed.

(** ** GridFS *)

Lemma upload_pdfs b fn ct buf env d :
  Mongo.pdfs (snd (GridFS.upload b fn ct buf env d)) = Mongo.pdfs d.
Proof.
  unfold GridFS.upload.
  destruct (Env.failure env Env.GridFSUpload).
  - by destruct (GridFS.insert_chunks _ _ _ _ _).
  - destruct (GridFS.insert_chunks _ _ _ _ _) as [[e |] coll]; [done |].
    by destruct (Mongo.files d !! Env.uploadStreamId env).
Qed.

Lemma upload_failed_files b fn ct buf env d e d' :
  GridFS.upload b fn ct buf env d = (Some e, d') → Mongo.files d' = Mongo.files d.
Proof.
  unfold GridFS.upload.
  destruct (Env.failure env Env.GridFSUpload).
  - destruct (GridFS.insert_chunks _ _ _ _ _). by intros [= _ <-].
  - destruct (GridFS.insert_chunks _ _ _ _ _) as [[e' |] coll]; [by intros [= _ <-] |].
    destruct (Mongo.files d !! Env.uploadStreamId env); [by intros [= _ <-] | done].
Qed.

Lemma upload_io_failure b fn ct buf env d msg :
  Env.failure env Env.GridFSUpload = Some msg →
  fst (GridFS.upload b fn ct buf env d) = Some (Err.MongoServerError msg).
Proof.
  intros H. unfold GridFS.upload. rewrite H.
  by destruct (GridFS.insert_chunks _ _ _ _ _).
Qed.

(** ** The upload route *)

(** The shape of every 201 answer of the upload handler: the saved document
    is the one built from the form, and it is in the collection. *)
Lemma post_pdfs_created req env st :
  Server.status (fst (Server.post_pdfs req env st)) = 201 →
  ∃ f doc,
    Server.file req = Some f
    ∧ Server.content (fst (Server.post_pdfs req env st)) = Server.Json_pdf doc
    ∧ Mongo.pdfs (Server.db (snd (Server.post_pdfs req env st))) =
        <[Pdf._id doc := doc]> (Mongo.pdfs (Server.db st))
    ∧ Mongo.pdfs (Server.db st) !! Pdf._id doc = None
    ∧ Mongoose.validate doc = []
    ∧ Pdf.author doc = JS.or_string (Server.author (Server.body_of req)) "Unknown"
    ∧ Pdf.price doc = JS.or_number (JS.Number (Server.price (Server.body_of req))) JS.zero
    ∧ Pdf.locked doc = JS.gt (Pdf.price doc) JS.zero.
Proof.
  unfold Server.post_pdfs.
  destruct (Server.file req) as [f |]; [| done].
  cbn [Server.say Server.gridfsBucket Server.db].
  destruct (Server.gridfsBucket st) as [bucket |]; [| done].
  destruct (GridFS.upload _ _ _ _ _ _) as [[e |] d1] eqn:U; [done |].
  pose proof (upload_pdfs bucket
    (Hex.of_bytes (Env.randomBytes env) ++ Path.extname (Multer.originalname f))%string
    (Multer.mimetype f) (Multer.buffer f) env (Server.db st)) as P.
  rewrite U in P. simpl in P.
  cbn [Server.with_db Server.say Server.db].
  destruct (Mongoose.save _ _ _) as [[e | saved] d2] eqn:S; [done |].
  apply save_inr in S as (-> & V & L & ->).
  intros _. eexists f, _. cbn. rewrite P.
  repeat split; try done. by rewrite <- P.
Qed.

(** Everything but a 201 leaves the [pdfs] collection as it was. *)
Lemma post_pdfs_not_created req env st :
  Server.status (fst (Server.post_pdfs req env st)) ≠ 201 →
  Mongo.pdfs (Server.db (snd (Server.post_pdfs req env st))) = Mongo.pdfs (Server.db st).
Proof.
  unfold Server.post_pdfs.
  destruct (Server.file req) as [f |]; [| done].
  cbn [Server.say Server.gridfsBucket Server.db].
  destruct (Server.gridfsBucket st) as [bucket |]; [| done].
  destruct (GridFS.upload _ _ _ _ _ _) as [[e |] d1] eqn:U.
  - intros _. cbn.
    eapply (f_equal snd) in U. simpl in U. rewrite <- U. apply upload_pdfs.
  - cbn [Server.with_db Server.say Server.db].
    destruct (Mongoose.save _ _ _) as [[e | saved] d2] eqn:S; [| done].
    apply save_inl in S as ->. intros _. cbn.
    eapply (f_equal snd) in U. simpl in U. rewrite <- U. apply upload_pdfs.
Qed.

(** C1: a successful upload stores [author], [price] and [locked] computed
    from the form: [author] falls back to "Unknown", a missing or
    non-numeric [price] becomes 0, and [locked] is exactly [price > 0] on the
    stored price ([price=15] locks, [price=0] or no price does not). *)
Theorem created_record_defaults (req : Server.request) (env : Env.t) (st : Server.state) :
  let form := Server.body_of req in
  let out := Server.post_pdfs req env st in
  Server.status (fst out) = 201 →
  ∃ doc,
    Server.content (fst out) = Server.Json_pdf doc
    ∧ Mongo.pdfs (Server.db (snd out)) !! Pdf._id doc = Some doc
    ∧ Pdf.price doc = JS.or_number (JS.Number (Server.price form)) JS.zero
    ∧ Pdf.locked doc = JS.gt (Pdf.price doc) JS.zero
    ∧ (Server.author form = JS.undefined → Pdf.author doc = "Unknown")
    ∧ (Server.price form = JS.undefined ∨ JS.Number (Server.price form) = JS.NaN →
       Pdf.price doc = JS.zero ∧ Pdf.locked doc = false)
    ∧ (Server.price form = JS.str "0" → Pdf.price doc = JS.zero ∧ Pdf.locked doc = false)
    ∧ (Server.price form = JS.str "15" → Pdf.locked doc = true).
Proof.
  intros form out H.
  destruct (post_pdfs_created req env st H) as (f & doc & _ & C & M & _ & _ & A & P & L).
  exists doc. fold out in C, M. fold form in A, P.
  split; [done |]. split; [by rewrite M, lookup_insert_eq |].
  split; [done |]. split; [done |].
  split; [by intros E; rewrite A, E |].
  split; [| split].
  - intros [E | E]; rewrite L, P, E; done.
  - intros E. rewrite L, P, E. done.
  - intros E. rewrite L, P, E. done.
Qed.

Lemma created_record_defaults_witness :
  ∃ doc,
    Server.content (fst (Server.post_pdfs
        {| Server.file := Some (Multer.memoryStorage one_byte);
           Server.body_of := form0 "A" "B" JS.undefined |}
        (env0 1 2 1000) (Server.on_open (Server.init Mongo.empty)))) = Server.Json_pdf doc
    ∧ Pdf.author doc = "Unknown" ∧ Pdf.price doc = JS.zero ∧ Pdf.locked doc = false.
Proof.
  destruct (created_record_defaults
    {| Server.file := Some (Multer.memoryStorage one_byte);
       Server.body_of := form0 "A" "B" JS.undefined |}
    (env0 1 2 1000) (Server.on_open (Server.init Mongo.empty)))
    as (doc & C & _ & _ & _ & A & P & _).
  - vm_compute. reflexivity.
  - exists doc. split; [exact C |].
    split; [apply A; reflexivity |]. apply P. left. reflexivity.
Defined.

(** C6: when the GridFS write fails with an I/O error the handler ends in its
    [catch] block: it answers 500 with the error message, prints the failure,
    and neither a metadata record nor a [files] document has been created. *)
Theorem upload_write_failure (req : Server.request) (f : Multer.file)
    (bucket : GridFS.bucket) (env : Env.t) (st : Server.state) (msg : string) :
  let out := Server.post_pdfs req env st in
  Server.file req = Some f →
  Server.gridfsBucket st = Some bucket →
  Env.failure env Env.GridFSUpload = Some msg →
  fst out =
    {| Server.status := 500;
       Server.content := Server.Json_error_details "Failed to process PDF upload" msg |}
  ∧ Mongo.pdfs (Server.db (snd out)) = Mongo.pdfs (Server.db st)
  ∧ Mongo.files (Server.db (snd out)) = Mongo.files (Server.db st)
  ∧ last (Server.console (snd out)) =
      Some (Server.Error, ("❌ Upload Workflow Failure: " ++ msg)%string).
Proof.
  intros out Hf Hb Hfail. subst out. unfold Server.post_pdfs.
  rewrite Hf. cbn [Server.say Server.gridfsBucket Server.db]. rewrite Hb.
  destruct (GridFS.upload _ _ _ _ _ _) as [e d1] eqn:U.
  pose proof (upload_io_failure bucket
    (Hex.of_bytes (Env.randomBytes env) ++ Path.extname (Multer.originalname f))%string
    (Multer.mimetype f) (Multer.buffer f) env (Server.db st) msg Hfail) as E.
  rewrite U in E. simpl in E. subst e.
  pose proof (upload_failed_files _ _ _ _ _ _ _ _ U) as F.
  pose proof (f_equal (fun r => Mongo.pdfs (snd r)) U) as P.
  simpl in P. rewrite upload_pdfs in P.
  cbn. rewrite last_snoc. done.
Qed.

Lemma upload_write_failure_witness :
  Mongo.pdfs (Server.db (snd (Server.post_pdfs
      {| Server.file := Some (Multer.memoryStorage one_byte);
         Server.body_of := form0 "A" "B" JS.undefined |}
      env_write_fails (Server.on_open (Server.init Mongo.empty)))))
  = Mongo.pdfs (Server.db (Server.on_open (Server.init Mongo.empty))).
Proof.
  eapply (upload_write_failure _ (Multer.memoryStorage one_byte)
            {| GridFS.bucketName := "uploads" |} env_write_fails
            (Server.on_open (Server.init Mongo.empty)) "socket closed");
    reflexivity.
Defined.

(** C7: creating a metadata record validates [title] and [category]: when
    either is missing (or empty) [save] rejects with a ValidationError naming
    the path and stores nothing; the upload handler then never answers 201,
    leaves [pdfs] unchanged, and reports the validation message in its 500
    answer once the file itself has been written. *)
Theorem save_requires_title_and_category (req : Server.request) (env : Env.t)
    (st : Server.state) :
  let form := Server.body_of req in
  let out := Server.post_pdfs req env st in
  JS.truthy (Server.title form) = false ∨ JS.truthy (Server.category form) = false →
  (∀ doc d, Pdf.title doc = Server.title form → Pdf.category doc = Server.category form →
     ∃ paths, Mongoose.save doc env d = (inl (Err.ValidationError "Pdf" paths), d)
       ∧ (JS.truthy (Server.title form) = false → "title" ∈ paths)
       ∧ (JS.truthy (Server.category form) = false → "category" ∈ paths))
  ∧ Server.status (fst out) ≠ 201
  ∧ Mongo.pdfs (Server.db (snd out)) = Mongo.pdfs (Server.db st)
  ∧ (∀ f bucket,
       Server.file req = Some f → Server.gridfsBucket st = Some bucket →
       fst (GridFS.upload bucket
              (Hex.of_bytes (Env.randomBytes env) ++ Path.extname (Multer.originalname f))%string
              (Multer.mimetype f) (Multer.buffer f) env (Server.db st)) = None →
       ∃ paths, paths ≠ []
         ∧ fst out =
             {| Server.status := 500;
                Server.content :=
                  Server.Json_error_details "Failed to process PDF upload"
                    (Err.message (Err.ValidationError "Pdf" paths)) |}).
Proof.
  intros form out H.
  assert (Hsave : ∀ doc d,
    Pdf.title doc = Server.title form → Pdf.category doc = Server.category form →
    Mongoose.save doc env d = (inl (Err.ValidationError "Pdf" (Mongoose.validate doc)), d)
    ∧ Mongoose.validate doc ≠ []
    ∧ (JS.truthy (Server.title form) = false → "title" ∈ Mongoose.validate doc)
    ∧ (JS.truthy (Server.category form) = false → "category" ∈ Mongoose.validate doc)).
  { intros doc d Ht Hc.
    destruct (validate_required doc) as (N & T & C); [by rewrite Ht, Hc |].
    rewrite Ht in T. rewrite Hc in C.
    split; [| done]. unfold Mongoose.save.
    by destruct (Mongoose.validate doc). }
  assert (Hstatus : Server.status (fst out) ≠ 201).
  { intros C. destruct (post_pdfs_created req env st C) as (f & doc & _ & _ & _ & _ & V & _).
    subst out. revert V C. unfold Server.post_pdfs.
    destruct (Server.file req) as [f' |]; [| done].
    cbn [Server.say Server.gridfsBucket Server.db].
    destruct (Server.gridfsBucket st) as [bucket |]; [| done].
    destruct (GridFS.upload _ _ _ _ _ _) as [[e |] d1]; [done |].
    cbn [Server.with_db Server.say Server.db].
    match goal with |- context [Mongoose.save ?doc env d1] =>
      destruct (Hsave doc d1 eq_refl eq_refl) as (-> & _) end.
    done. }
  split; [| split; [done | split; [by apply post_pdfs_not_created |]]].
  - intros doc d Ht Hc. exists (Mongoose.validate doc).
    destruct (Hsave doc d Ht Hc) as (S & _ & T & C). done.
  - intros f bucket Hf Hb Hu. subst out. unfold Server.post_pdfs.
    rewrite Hf. cbn [Server.say Server.gridfsBucket Server.db]. rewrite Hb.
    destruct (GridFS.upload _ _ _ _ _ _) as [e d1]. simpl in Hu. subst e.
    cbn [Server.with_db Server.say Server.db].
    match goal with |- context [Mongoose.save ?doc env d1] =>
      destruct (Hsave doc d1 eq_refl eq_refl) as (-> & N & _);
      exists (Mongoose.validate doc) end.
    done.
Qed.

Lemma save_requires_title_and_category_witness :
  Server.status (fst (Server.post_pdfs
      {| Server.file := Some (Multer.memoryStorage one_byte);
         Server.body_of := form_without_title |}
      (env0 1 2 1000) (Server.on_open (Server.init Mongo.empty)))) ≠ 201.
Proof.
  apply (save_requires_title_and_category
           {| Server.file := Some (Multer.memoryStorage one_byte);
              Server.body_of := form_without_title |}
           (env0 1 2 1000) (Server.on_open (Server.init Mongo.empty))).
  left. reflexivity.
Defined.

(** ** The retrieval route *)

(** C10: a file request that arrives while [gridfsBucket] is still undefined
    is answered 503, whatever the id, and changes nothing. *)
Theorem get_file_before_ready (id : string) (env : Env.t) (st : Server.state) :
  Server.gridfsBucket st = None →
  Server.get_file id env st =
    ({| Server.status := 503; Server.content := Server.Json_error "Stream engine not ready" |},
     st).
Proof. intros H. unfold Server.get_file. by rewrite H. Qed.

Lemma get_file_before_ready_witness :
  Server.status (fst (Server.get_file "not-an-id" (env0 1 2 0) (Server.init Mongo.empty))) = 503.
Proof.
  rewrite (get_file_before_ready "not-an-id" (env0 1 2 0) (Server.init Mongo.empty));
    reflexivity.
Defined.

(** A download that ends without an error has emitted the chunks numbered
    0, 1, 2, ... of the file, in that order. *)
Lemma read_chunks_ordered id size coll : ∀ count n remaining data,
  GridFS.read_chunks count id n remaining size coll = (data, None) →
  length data = count
  ∧ ∀ (i : nat) c, data !! i = Some c → coll !! (id, n + N.of_nat i) = Some c.
Proof.
  induction count as [| count IH]; intros n remaining data H.
  - injection H as <-. done.
  - cbn [GridFS.read_chunks] in H.
    destruct (coll !! (id, n)) as [d |] eqn:E; [| done].
    destruct (N.of_nat (length d) =? N.min size remaining); [| done].
    destruct (GridFS.read_chunks count id (n + 1) _ size coll) as [rest e] eqn:R.
    injection H as <- ->.
    destruct (IH _ _ _ R) as [L O]. split; [by rewrite <- L |].
    intros [| i] c Hc.
    + injection Hc as <-. by rewrite N.add_0_r.
    + replace (n + N.of_nat (S i)) with (n + 1 + N.of_nat i) by lia. by apply O.
Qed.

Lemma download_ordered b id env d data :
  GridFS.download b id env d = (data, None) →
  ∀ (i : nat) c, data !! i = Some c → Mongo.chunks d !! (id, N.of_nat i) = Some c.
Proof.
  unfold GridFS.download.
  destruct (Env.failure env Env.GridFSDownload); [done |].
  destruct (Mongo.files d !! id) as [doc |]; [| done].
  intros R i c Hc. apply read_chunks_ordered in R as [_ O].
  by apply (O i c).
Qed.

(** C3, as stated, fails: after one upload (blob 1, metadata record 2) the
    catalog has no record with id 1, yet a retrieval of id 1 answers 200 with
    the file; and the id of the metadata record itself, 2, answers 404. *)
Lemma retrieval_ignores_catalog :
  let st := after_upload JS.undefined in
  Bson.parse (hex24 1) = Some 1
  ∧ Mongo.pdfs (Server.db st) !! 1 = None
  ∧ fst (Server.get_file (hex24 1) (env0 3 4 2000) st) =
      {| Server.status := 200;
         Server.content := Server.Stream "application/pdf" [[Byte.x25]] true |}
  ∧ is_Some (Mongo.pdfs (Server.db st) !! 2)
  ∧ Server.status (fst (Server.get_file (hex24 2) (env0 3 4 2000) st)) = 404.
Proof. vm_compute. repeat split. by exists
  {| Pdf._id := 2; Pdf.title := JS.str "A"; Pdf.author := "Unknown"; Pdf.price := JS.zero;
     Pdf.category := JS.str "B"; Pdf.description := JS.undefined; Pdf.fileId := 1;
     Pdf.fileName := "a.pdf"; Pdf.createdAt := 1000; Pdf.locked := false |}.
Qed.

Lemma chunk_count_covers (len size : N) :
  0 < size → len <= GridFS.chunk_count len size * size.
Proof.
  intros H. unfold GridFS.chunk_count.
  destruct (N.eqb_spec size 0) as [? | Hs]; [lia |].
  pose proof (N.div_mod (len + size - 1) size Hs) as Dm.
  pose proof (N.mod_lt (len + size - 1) size Hs) as Ml.
  rewrite (N.mul_comm _ size). lia.
Qed.

(** A download that ends without an error has delivered as many bytes as
    the reader set out for. *)
Lemma read_chunks_total id size coll : ∀ count n remaining data,
  GridFS.read_chunks count id n remaining size coll = (data, None) →
  N.of_nat (length (concat data)) = N.min remaining (N.of_nat count * size).
Proof.
  induction count as [| count IH]; intros n remaining data H.
  - injection H as <-. cbn. lia.
  - cbn [GridFS.read_chunks] in H.
    destruct (coll !! (id, n)) as [d |] eqn:E; [| done].
    destruct (N.eqb_spec (N.of_nat (length d)) (N.min size remaining)) as [Hd |]; [| done].
    destruct (GridFS.read_chunks count id (n + 1) _ size coll) as [rest e] eqn:R.
    injection H as <- ->. apply IH in R.
    cbn [concat]. rewrite length_app, Nat2N.inj_add, R, Hd.
    rewrite Nat2N.inj_succ, N.mul_succ_l. lia.
Qed.

(** Chunks that are all there, with the sizes the reader expects, are all
    delivered. *)
Lemma read_chunks_intact id size coll : ∀ count n remaining,
  (∀ i, i < N.of_nat count →
     ∃ c, coll !! (id, n + i) = Some c
          ∧ N.of_nat (length c) = N.min size (remaining - i * size)) →
  ∃ data, GridFS.read_chunks count id n remaining size coll = (data, None).
Proof.
  induction count as [| count IH]; intros n remaining H; [by eexists |].
  cbn [GridFS.read_chunks].
  destruct (H 0) as (c & L & S); [lia |].
  rewrite N.add_0_r in L. rewrite L.
  rewrite N.mul_0_l, N.sub_0_r in S. rewrite S, N.eqb_refl.
  destruct (IH (n + 1) (remaining - N.min size remaining)) as (data & R).
  - intros i Hi. destruct (H (i + 1)) as (c' & L' & S'); [lia |].
    exists c'. split; [by replace (n + 1 + i) with (n + (i + 1)) by lia |].
    rewrite S', N.mul_add_distr_r, N.mul_1_l. lia.
  - rewrite R. by eexists.
Qed.

Lemma get_file_cases id fileId bucket env st :
  Server.gridfsBucket st = Some bucket → Bson.parse id = Some fileId →
  Server.get_file id env st =
    match GridFS.download bucket fileId env (Server.db st) with
    | ([], Some _) =>
        ({| Server.status := 404;
            Server.content := Server.Json_error "Document content not found" |}, st)
    | (data, None) =>
        ({| Server.status := 200;
            Server.content := Server.Stream "application/pdf" data true |}, st)
    | (data, Some _) =>
        ({| Server.status := 200;
            Server.content := Server.Stream "application/pdf" data false |},
         Server.say Server.Error Server.uncaught_headers_sent st)
    end.
Proof.
  intros Hb Hid. unfold Server.get_file. rewrite Hb, Hid.
  by destruct (GridFS.download _ _ _ _) as [[| c data] [e |]].
Qed.

(** C3, amended: with the bucket ready and a well-formed id, retrieval takes
    the id as a blob id and resolves it in the bucket without consulting the
    catalog: the answer is the same for every content of [pdfs].  It is 404,
    with nothing changed, when no blob has that id or the download fails
    before any data.  A complete answer is [application/pdf] and consists of
    exactly the blob's chunks, as many as its [files] document calls for, in
    sequence order, with the blob's length in bytes; and an intact blob whose
    download does not fail is answered completely, with nothing changed. *)
Theorem retrieval_resolves_blob_id (id : string) (fileId : Bson.ObjectId)
    (bucket : GridFS.bucket) (env : Env.t) (st : Server.state) :
  Server.gridfsBucket st = Some bucket →
  Bson.parse id = Some fileId →
  (∀ m, fst (Server.get_file id env (with_catalog st m)) = fst (Server.get_file id env st))
  ∧ (Mongo.files (Server.db st) !! fileId = None
     ∨ is_Some (Env.failure env Env.GridFSDownload) →
     Server.get_file id env st =
       ({| Server.status := 404;
           Server.content := Server.Json_error "Document content not found" |}, st))
  ∧ (∀ ct data,
       fst (Server.get_file id env st) =
         {| Server.status := 200; Server.content := Server.Stream ct data true |} →
       ct = "application/pdf"
       ∧ ∃ doc,
           Mongo.files (Server.db st) !! fileId = Some doc
           ∧ N.of_nat (length data)
             = GridFS.chunk_count (Mongo.file_length doc) (Mongo.file_chunkSize doc)
           ∧ (∀ (i : nat) c, data !! i = Some c →
                Mongo.chunks (Server.db st) !! (fileId, N.of_nat i) = Some c)
           ∧ (0 < Mongo.file_chunkSize doc →
              N.of_nat (length (concat data)) = Mongo.file_length doc))
  ∧ (∀ doc,
       Mongo.files (Server.db st) !! fileId = Some doc →
       Env.failure env Env.GridFSDownload = None →
       blob_intact (Server.db st) fileId doc →
       ∃ data,
         Server.get_file id env st =
           ({| Server.status := 200;
               Server.content := Server.Stream "application/pdf" data true |}, st)).
Proof.
  intros Hb Hid.
  assert (Hm : ∀ m, GridFS.download bucket fileId env (Mongo.with_pdfs (Server.db st) m)
                    = GridFS.download bucket fileId env (Server.db st)) by done.
  split; [| split; [| split]].
  - intros m.
    rewrite (get_file_cases id fileId bucket env (with_catalog st m) Hb Hid).
    rewrite (get_file_cases id fileId bucket env st Hb Hid).
    unfold with_catalog, Server.with_db. cbn [Server.db]. rewrite Hm.
    by destruct (GridFS.download _ _ _ _) as [[| c data] [e |]].
  - intros H. rewrite (get_file_cases id fileId bucket env st Hb Hid).
    unfold GridFS.download.
    destruct (Env.failure env Env.GridFSDownload) as [msg |] eqn:F; [done |].
    destruct H as [-> | [? ?]]; done.
  - intros ct data. rewrite (get_file_cases id fileId bucket env st Hb Hid).
    destruct (GridFS.download bucket fileId env (Server.db st)) as [data' e] eqn:D.
    intros R.
    assert (ct = "application/pdf" ∧ data' = data ∧ e = None) as (-> & -> & ->).
    { destruct data' as [| c data'], e as [e |]; cbn in R; by simplify_eq. }
    split; [done |].
    unfold GridFS.download in D.
    destruct (Env.failure env Env.GridFSDownload); [done |].
    destruct (Mongo.files (Server.db st) !! fileId) as [doc |]; [| done].
    exists doc. split; [done |].
    pose proof (read_chunks_ordered _ _ _ _ _ _ _ D) as [Len Ord].
    pose proof (read_chunks_total _ _ _ _ _ _ _ D) as Tot.
    split; [by rewrite Len, N2Nat.id |]. split; [by intros i c; apply Ord |].
    intros Hs. rewrite Tot, N2Nat.id.
    pose proof (chunk_count_covers (Mongo.file_length doc) (Mongo.file_chunkSize doc) Hs).
    lia.
  - intros doc Hdoc F I. rewrite (get_file_cases id fileId bucket env st Hb Hid).
    unfold GridFS.download. rewrite F, Hdoc.
    destruct (read_chunks_intact fileId (Mongo.file_chunkSize doc) (Mongo.chunks (Server.db st))
                (N.to_nat (GridFS.chunk_count (Mongo.file_length doc)
                             (Mongo.file_chunkSize doc)))
                0 (Mongo.file_length doc)) as (data & R).
    + intros i Hi. rewrite N2Nat.id in Hi. rewrite N.add_0_l. by apply I.
    + rewrite R. exists data. by destruct data.
Qed.

Lemma retrieval_resolves_blob_id_witness :
  ∃ data,
    Server.get_file (hex24 1) (env0 3 4 2000) (after_upload JS.undefined) =
      ({| Server.status := 200;
          Server.content := Server.Stream "application/pdf" data true |},
       after_upload JS.undefined).
Proof.
  destruct (retrieval_resolves_blob_id (hex24 1) 1 {| GridFS.bucketName := "uploads" |}
              (env0 3 4 2000) (after_upload JS.undefined) eq_refl eq_refl)
    as (_ & _ & _ & Live).
  apply (Live {| Mongo.file_length := 1; Mongo.file_chunkSize := 261120;
                 Mongo.file_uploadDate := 1000;
                 Mongo.file_filename := "2a2a2a2a2a2a2a2a2a2a2a2a2a2a2a2a.pdf";
                 Mongo.file_contentType := "application/pdf" |}).
  - vm_compute. reflexivity.
  - reflexivity.
  - intros i Hi. exists [Byte.x25].
    assert (i = 0) as -> by (vm_compute in Hi; destruct i; [reflexivity | by destruct p]).
    split; vm_compute; reflexivity.
Defined.

(** ** The delete route *)

Lemma findById_ok id oid env d :
  Bson.parse id = Some oid → Env.failure env Env.PdfFindById = None →
  Mongoose.findById id env d = inr (Mongo.pdfs d !! oid).
Proof. intros Hid Hf. unfold Mongoose.findById, Mongoose.castObjectId. by rewrite Hid, Hf. Qed.

Lemma findByIdAndDelete_ok id oid env d :
  Bson.parse id = Some oid → Env.failure env Env.PdfFindByIdAndDelete = None →
  Mongoose.findByIdAndDelete id env d =
    (inr (Mongo.pdfs d !! oid), Mongo.with_pdfs d (base.delete oid (Mongo.pdfs d))).
Proof.
  intros Hid Hf. unfold Mongoose.findByIdAndDelete, Mongoose.castObjectId.
  by rewrite Hid, Hf.
Qed.

Lemma gridfs_delete_pdfs b id env d :
  Mongo.pdfs (snd (GridFS.delete b id env d)) = Mongo.pdfs d.
Proof.
  unfold GridFS.delete.
  destruct (Env.failure env Env.GridFSDelete); [done |].
  by destruct (Mongo.files d !! id).
Qed.

Lemma cleanup_pdfs pdf env st :
  Mongo.pdfs (Server.db (Server.cleanup pdf env st)) = Mongo.pdfs (Server.db st).
Proof.
  unfold Server.cleanup. destruct (Server.gridfsBucket st) as [b |]; [| done].
  pose proof (gridfs_delete_pdfs b (Pdf.fileId pdf) env (Server.db st)) as P.
  by destruct (GridFS.delete _ _ _ _) as [[e |] d].
Qed.

(** The delete route never answers 503. *)
Lemma delete_pdf_status id env st :
  Server.status (fst (Server.delete_pdf id env st)) ∈ [200; 404; 500].
Proof.
  unfold Server.delete_pdf.
  destruct (Mongoose.findById _ _ _) as [e | [pdf |]]; cbn; [set_solver | | set_solver].
  destruct (Mongoose.findByIdAndDelete _ _ _) as [[e | r] d]; cbn; set_solver.
Qed.

(** C5: deleting by a metadata id.  When no record has the id the answer is
    404 and nothing changes.  When a record has it, the blob it references is
    deleted through the bucket if the bucket is there; a failure of that
    deletion only adds a warning to the console, and in every case the
    metadata record is removed and the answer is 200. *)
Theorem delete_is_best_effort (id : string) (oid : Bson.ObjectId) (env : Env.t)
    (st : Server.state) :
  let out := Server.delete_pdf id env st in
  Bson.parse id = Some oid →
  Env.failure env Env.PdfFindById = None →
  (Mongo.pdfs (Server.db st) !! oid = None →
     out = ({| Server.status := 404; Server.content := Server.Json_error "PDF not found" |}, st))
  ∧ (∀ pdf, Mongo.pdfs (Server.db st) !! oid = Some pdf →
       Env.failure env Env.PdfFindByIdAndDelete = None →
       fst out =
         {| Server.status := 200;
            Server.content := Server.Json_message "PDF deleted successfully" |}
       ∧ Mongo.pdfs (Server.db (snd out)) = base.delete oid (Mongo.pdfs (Server.db st))
       ∧ Mongo.pdfs (Server.db (snd out)) !! oid = None
       ∧ (∀ bucket, Server.gridfsBucket st = Some bucket →
            let attempt := GridFS.delete bucket (Pdf.fileId pdf) env (Server.db st) in
            Mongo.files (Server.db (snd out)) = Mongo.files (snd attempt)
            ∧ Mongo.chunks (Server.db (snd out)) = Mongo.chunks (snd attempt)
            ∧ match fst attempt with
              | None =>
                  Server.console (snd out) = Server.console st
                  ∧ Mongo.files (Server.db (snd out)) !! Pdf.fileId pdf = None
              | Some err =>
                  Server.console (snd out) =
                    Server.console st
                    ++ [(Server.Warn, ("⚠️ File cleanup warning: " ++ Err.message err)%string)]
              end)).
Proof.
  intros out Hid Hfind. subst out. unfold Server.delete_pdf.
  rewrite (findById_ok id oid env _ Hid Hfind).
  split.
  - by intros ->.
  - intros pdf -> Hdel.
    rewrite (findByIdAndDelete_ok id oid env _ Hid Hdel).
    cbn [fst snd Server.with_db Server.db Mongo.with_pdfs Mongo.pdfs].
    rewrite cleanup_pdfs.
    split; [done |]. split; [done |]. split; [apply lookup_delete_eq |].
    intros bucket Hb. unfold Server.cleanup. rewrite Hb.
    unfold GridFS.delete.
    destruct (Env.failure env Env.GridFSDelete) as [msg |]; [done |].
    destruct (Mongo.files (Server.db st) !! Pdf.fileId pdf); cbn; [| done].
    repeat split. apply lookup_delete_eq.
Qed.

Lemma delete_is_best_effort_witness :
  let out := Server.delete_pdf (hex24 2) env_cleanup_fails (after_upload JS.undefined) in
  Server.status (fst out) = 200
  ∧ Mongo.pdfs (Server.db (snd out)) !! 2 = None
  ∧ is_Some (Mongo.files (Server.db (snd out)) !! 1)
  ∧ last (Server.console (snd out)) =
      Some (Server.Warn, "⚠️ File cleanup warning: not primary").
Proof.
  destruct (delete_is_best_effort (hex24 2) 2 env_cleanup_fails (after_upload JS.undefined))
    as [_ H]; try reflexivity.
  destruct (H {| Pdf._id := 2; Pdf.title := JS.str "A"; Pdf.author := "Unknown";
                 Pdf.price := JS.zero; Pdf.category := JS.str "B";
                 Pdf.description := JS.undefined; Pdf.fileId := 1; Pdf.fileName := "a.pdf";
                 Pdf.createdAt := 1000; Pdf.locked := false |}) as (R & _ & G & _).
  - vm_compute. reflexivity.
  - reflexivity.
  - cbv zeta. rewrite R. split; [reflexivity |]. split; [exact G |].
    vm_compute. split; [eexists; reflexivity | reflexivity].
Defined.

(** ** Requests that arrive before the connection is open *)

(** C4, as stated, fails: on a process that has just started, a delete
    whose lookup is still buffered when Mongoose gives up is answered 500,
    and an upload without a file part is answered 400; the same delete
    handled once the connection has opened is answered 200. *)
Lemma delete_before_ready_not_503 :
  Server.gridfsBucket just_started = None
  ∧ Server.step (Server.DeletePdf (hex24 2) (env0 3 4 2000)) just_started =
      (Some {| Server.status := 500; Server.content := Server.Json_error "Failed to delete PDF" |},
       just_started)
  ∧ fst (Server.step (Server.PostPdfs upload_without_file (env0 3 4 2000)) just_started) =
      Some {| Server.status := 400; Server.content := Server.Json_error "No file uploaded" |}
  ∧ fst (Server.step (Server.DeletePdf (hex24 2) (env0 3 4 2000))
           (Server.on_open just_started)) =
      Some {| Server.status := 200;
              Server.content := Server.Json_message "PDF deleted successfully" |}.
Proof. vm_compute. done. Qed.

Lemma delete_pdf_never_connected id env st :
  Server.delete_pdf id (Mongoose.never_connected env) st =
    ({| Server.status := 500; Server.content := Server.Json_error "Failed to delete PDF" |}, st).
Proof.
  unfold Server.delete_pdf, Mongoose.findById.
  by destruct (Mongoose.castObjectId id).
Qed.

(** C4, amended: while [gridfsBucket] is undefined, an upload whose file
    part multer accepts and every retrieval are answered 503 and store
    nothing; an upload without a file part is answered 400 and one with a
    part over the size limit 500, both before the readiness check; a delete
    is never answered 503: its lookup waits for the connection, and it is
    answered 500 with nothing changed when the connection does not open in
    time, or handled as a request after the opening when it does. *)
Theorem before_ready_responses (env : Env.t) (st : Server.state) :
  Server.gridfsBucket st = None →
  (∀ u p, Server.file_part u = Some p →
     N.of_nat (length (concat (Multer.part_stream p))) <= Multer.fileSize →
     fst (Server.step (Server.PostPdfs u env) st) =
       Some {| Server.status := 503;
               Server.content := Server.Json_error "Database/GridFS not ready" |}
     ∧ Server.db (snd (Server.step (Server.PostPdfs u env) st)) = Server.db st)
  ∧ (∀ u, Server.file_part u = None →
     fst (Server.step (Server.PostPdfs u env) st) =
       Some {| Server.status := 400; Server.content := Server.Json_error "No file uploaded" |}
     ∧ Server.db (snd (Server.step (Server.PostPdfs u env) st)) = Server.db st)
  ∧ (∀ u p, Server.file_part u = Some p →
     Multer.fileSize < N.of_nat (length (concat (Multer.part_stream p))) →
     fst (Server.step (Server.PostPdfs u env) st) =
       Some {| Server.status := 500;
               Server.content :=
                 Server.Json_error_details "An internal server error occurred"
                   "File too large" |}
     ∧ Server.db (snd (Server.step (Server.PostPdfs u env) st)) = Server.db st)
  ∧ (∀ id, Server.step (Server.GetFile id env) st =
       (Some {| Server.status := 503;
                Server.content := Server.Json_error "Stream engine not ready" |}, st))
  ∧ (∀ id, Server.step (Server.DeletePdf id env) st =
       (Some {| Server.status := 500;
                Server.content := Server.Json_error "Failed to delete PDF" |}, st))
  ∧ (∀ id env' st', Server.status (fst (Server.delete_pdf id env' st')) ≠ 503).
Proof.
  intros Hb.
  assert (He : Server.env_at st env = Mongoose.never_connected env)
    by (unfold Server.env_at; by rewrite Hb).
  split; [| split; [| split; [| split; [| split]]]].
  - intros u p Hp Hl. cbn [Server.step]. rewrite He.
    unfold Server.route_post_pdfs, Multer.single. rewrite Hp.
    apply N.ltb_ge in Hl. rewrite Hl.
    unfold Server.post_pdfs. cbn [Server.file Server.say Server.gridfsBucket].
    by rewrite Hb.
  - intros u Hp. cbn [Server.step]. rewrite He.
    unfold Server.route_post_pdfs, Multer.single. rewrite Hp. done.
  - intros u p Hp Hl. cbn [Server.step]. rewrite He.
    unfold Server.route_post_pdfs, Multer.single. rewrite Hp.
    apply N.ltb_lt in Hl. rewrite Hl. done.
  - intros id. cbn [Server.step]. unfold Server.get_file. by rewrite Hb.
  - intros id. cbn [Server.step]. by rewrite He, delete_pdf_never_connected.
  - intros id env' st' E. pose proof (delete_pdf_status id env' st') as S.
    rewrite E in S. rewrite !elem_of_cons, elem_of_nil in S.
    destruct S as [S | [S | [S | []]]]; discriminate S.
Qed.

Lemma before_ready_responses_witness :
  Server.step (Server.DeletePdf (hex24 2) (env0 3 4 2000)) just_started =
    (Some {| Server.status := 500; Server.content := Server.Json_error "Failed to delete PDF" |},
     just_started)
  ∧ Server.step (Server.GetFile (hex24 1) (env0 3 4 2000)) just_started =
      (Some {| Server.status := 503;
               Server.content := Server.Json_error "Stream engine not ready" |},
       just_started).
Proof.
  destruct (before_ready_responses (env0 3 4 2000) just_started eq_refl)
    as (_ & _ & _ & G & D & _).
  split; [apply D | apply G].
Defined.

(** ** Stored prices *)

(** C2, as stated, fails: an upload whose [price] field is "-5" is accepted
    and stores a record whose price is below 0. *)
Lemma negative_price_is_stored :
  ∃ doc,
    Mongo.pdfs (Server.db (after_upload (JS.str "-5"))) !! 2 = Some doc
    ∧ JS.lt (Pdf.price doc) JS.zero = true
    ∧ Pdf.locked doc = false.
Proof. eexists. vm_compute. done. Qed.

Lemma delete_pdf_lookup id env st k doc :
  Mongo.pdfs (Server.db (snd (Server.delete_pdf id env st))) !! k = Some doc →
  Mongo.pdfs (Server.db st) !! k = Some doc.
Proof.
  unfold Server.delete_pdf.
  destruct (Mongoose.findById _ _ _) as [e | [pdf |]]; [done | | done].
  unfold Mongoose.findByIdAndDelete.
  destruct (Mongoose.castObjectId id) as [e | oid].
  { cbn. by rewrite cleanup_pdfs. }
  destruct (Env.failure env Env.PdfFindByIdAndDelete); cbn; rewrite cleanup_pdfs; [done |].
  rewrite lookup_delete_Some. by intros [_ ?].
Qed.

(** What every step keeps, every run keeps. *)
Lemma run_invariant (P : Server.state → Prop) :
  (∀ e st, P st → P (snd (Server.step e st))) →
  ∀ es st, P st → P (Server.run es st).
Proof.
  intros Hstep. induction es as [| e es IH]; intros st H; [done |].
  cbn [Server.run]. specialize (Hstep e st H).
  destruct (Server.step e st) as [[r |] st']; cbn in Hstep.
  - destruct (Server.exits r); [done | by apply IH].
  - by apply IH.
Qed.

Lemma step_prices_normalized e st :
  prices_normalized (Server.db st) → prices_normalized (Server.db (snd (Server.step e st))).
Proof.
  intros Inv. destruct e as [| u env | env | id env | id env]; cbn [Server.step];
    try (generalize (Server.env_at st env); clear env; intros env).
  - unfold Server.on_open. by destruct (Server.gridfsBucket st).
  - unfold Server.route_post_pdfs.
    destruct (Multer.single (Server.file_part u)) as [e | f]; [done |].
    set (req := {| Server.file := f; Server.body_of := Server.fields u |}).
    destruct (Server.post_pdfs req env st) as [r st'] eqn:E. cbn.
    destruct (decide (Server.status r = 201)) as [C | C].
    + pose proof (post_pdfs_created req env st) as H. rewrite E in H.
      destruct (H C) as (_ & doc & _ & _ & M & _ & _ & _ & P & _). cbn in M.
      intros k doc'. rewrite M. rewrite lookup_insert_Some.
      intros [[_ <-] | [_ L]]; [| by eapply Inv].
      rewrite P. apply or_number_zero_cases.
    + pose proof (post_pdfs_not_created req env st) as H. rewrite E in H.
      cbn in H. intros k doc'. rewrite (H C). apply Inv.
  - unfold Server.get_pdfs. by destruct (Mongoose.find_sorted _ _).
  - unfold Server.get_file.
    destruct (Server.gridfsBucket st); [| done].
    destruct (Bson.parse id); [| done].
    by destruct (GridFS.download _ _ _ _) as [[| c data] [e |]].
  - destruct (Server.delete_pdf id env st) as [r st'] eqn:E. cbn.
    intros k doc L. eapply Inv.
    eapply (delete_pdf_lookup id env st). by rewrite E.
Qed.

(** C2, amended: the stored price is always a number, never NaN: whatever
    requests arrive, every record holds either 0 or a non-zero number, and a
    successful upload stores [Number(price) || 0], which is below 0 exactly
    when the submitted price is a number below 0 (the schema sets no
    minimum). *)
Theorem stored_prices_normalized (es : list Server.event) (st : Server.state) :
  prices_normalized (Server.db st) →
  prices_normalized (Server.db (Server.run es st))
  ∧ (∀ id doc, Mongo.pdfs (Server.db (Server.run es st)) !! id = Some doc →
       Pdf.price doc ≠ JS.NaN)
  ∧ (∀ req env, Server.status (fst (Server.post_pdfs req env st)) = 201 →
       ∃ doc, Server.content (fst (Server.post_pdfs req env st)) = Server.Json_pdf doc
         ∧ Pdf.price doc = JS.or_number (JS.Number (Server.price (Server.body_of req))) JS.zero
         ∧ JS.lt (Pdf.price doc) JS.zero
           = JS.lt (JS.Number (Server.price (Server.body_of req))) JS.zero).
Proof.
  intros Inv.
  assert (R : prices_normalized (Server.db (Server.run es st))).
  { apply (run_invariant (fun s => prices_normalized (Server.db s)));
      [apply step_prices_normalized | done]. }
  split; [done |]. split.
  - intros id doc L E. destruct (R id doc L) as [H | H]; rewrite E in H; done.
  - intros req env C.
    destruct (post_pdfs_created req env st C) as (_ & doc & _ & B & _ & _ & _ & _ & P & _).
    exists doc. split; [done |]. split; [done |].
    rewrite P. apply lt_zero_or_number.
Qed.

Lemma stored_prices_normalized_witness :
  prices_normalized (Server.db (after_upload (JS.str "-5"))).
Proof.
  apply (stored_prices_normalized
           [Server.Open; Server.PostPdfs (upload0 (JS.str "-5")) (env0 1 2 1000)]
           (Server.init Mongo.empty)).
  intros id doc L. vm_compute in L. discriminate L.
Defined.

(** ** The listing route *)

#[local] Instance newer_first_total : Total Mongoose.newer_first.
Proof. intros a b. unfold Mongoose.newer_first. lia. Qed.

#[local] Instance newer_first_trans : Transitive Mongoose.newer_first.
Proof. intros a b c. unfold Mongoose.newer_first. lia. Qed.

Lemma find_sorted_spec env d :
  Env.failure env Env.PdfFind = None →
  ∃ docs, Mongoose.find_sorted env d = inr docs
    ∧ docs ≡ₚ (snd <$> map_to_list (Mongo.pdfs d))
    ∧ StronglySorted Mongoose.newer_first docs.
Proof.
  intros H. unfold Mongoose.find_sorted. rewrite H. eexists. split; [done |].
  split; [apply merge_sort_Permutation |].
  apply Sorted_StronglySorted; [apply _ |]. apply Sorted_merge_sort, _.
Qed.

(** A newest-first list of three records with distinct creation times. *)
Lemma three_newest_first (docs : list Pdf.t) (r1 r2 r3 : Pdf.t) :
  (Pdf.createdAt r1 < Pdf.createdAt r2)%Z →
  (Pdf.createdAt r2 < Pdf.createdAt r3)%Z →
  docs ≡ₚ [r1; r2; r3] →
  StronglySorted Mongoose.newer_first docs →
  docs = [r3; r2; r1].
Proof.
  intros H12 H23 P S.
  apply (StronglySorted_unique_strong Mongoose.newer_first); [| done | |].
  - intros x y Hx Hy. rewrite P in Hx.
    rewrite !elem_of_cons, elem_of_nil in Hx, Hy. unfold Mongoose.newer_first.
    destruct Hx as [-> | [-> | [-> | []]]], Hy as [-> | [-> | [-> | []]]];
      intros; (done || lia).
  - repeat constructor; unfold Mongoose.newer_first; lia.
  - rewrite P. apply (Permutation_rev [r1; r2; r3]).
Qed.

(** C8: the listing returns every stored record, each once, ordered by
    creation time, most recent first; three records created at [t1 < t2 <
    t3] come back as the third, the second, the first. *)
Theorem list_newest_first (env : Env.t) (st : Server.state) :
  Env.failure env Env.PdfFind = None →
  ∃ docs,
    Server.get_pdfs env st =
      ({| Server.status := 200; Server.content := Server.Json_pdfs docs |}, st)
    ∧ docs ≡ₚ (snd <$> map_to_list (Mongo.pdfs (Server.db st)))
    ∧ (∀ doc, doc ∈ docs ↔ ∃ id, Mongo.pdfs (Server.db st) !! id = Some doc)
    ∧ StronglySorted (fun a b => (Pdf.createdAt b <= Pdf.createdAt a)%Z) docs
    ∧ (∀ i1 i2 i3 r1 r2 r3,
         Mongo.pdfs (Server.db st) = <[i1 := r1]> (<[i2 := r2]> {[i3 := r3]}) →
         i1 ≠ i2 → i1 ≠ i3 → i2 ≠ i3 →
         (Pdf.createdAt r1 < Pdf.createdAt r2)%Z →
         (Pdf.createdAt r2 < Pdf.createdAt r3)%Z →
         docs = [r3; r2; r1]).
Proof.
  intros H. destruct (find_sorted_spec env (Server.db st) H) as (docs & F & P & S).
  exists docs. unfold Server.get_pdfs. rewrite F.
  split; [done |]. split; [done |]. split; [| split; [done |]].
  - intros doc. rewrite P, list_elem_of_fmap. split.
    + intros ([id doc'] & -> & L). exists id. by apply elem_of_map_to_list in L.
    + intros (id & L). exists (id, doc). split; [done |]. by apply elem_of_map_to_list.
  - intros i1 i2 i3 r1 r2 r3 M N12 N13 N23 H12 H23.
    apply (three_newest_first docs r1 r2 r3); [done | done | | done].
    rewrite P, M.
    rewrite map_to_list_insert
      by (rewrite lookup_insert_ne by done; by rewrite lookup_singleton_ne).
    rewrite map_to_list_insert by (by rewrite lookup_singleton_ne).
    by rewrite map_to_list_singleton.
Qed.

Lemma list_newest_first_witness :
  fst (Server.get_pdfs (env0 0 0 0) three_records) =
    {| Server.status := 200;
       Server.content := Server.Json_pdfs [record_at 3 300; record_at 2 200; record_at 1 100] |}.
Proof.
  destruct (list_newest_first (env0 0 0 0) three_records eq_refl)
    as (docs & G & _ & _ & _ & T).
  rewrite G. cbn [fst]. f_equal. f_equal.
  apply (T 1 2 3 (record_at 1 100) (record_at 2 200) (record_at 3 300));
    try reflexivity; try discriminate; cbn; lia.
Defined.

(** ** Buffering and chunking of an upload *)

Lemma slice_fuel_concat (size fuel : nat) (buf : list Byte.byte) :
  (0 < size)%nat → (length buf ≤ fuel)%nat →
  concat (GridFS.slice_fuel fuel size buf) = buf.
Proof.
  intros Hs. revert buf. induction fuel as [| fuel IH]; intros buf Hl.
  - destruct buf; [done | simpl in Hl; lia].
  - destruct buf as [| b buf']; [done |].
    cbn [GridFS.slice_fuel concat]. rewrite IH.
    + apply take_drop.
    + rewrite length_drop. simpl in *. lia.
Qed.

Lemma slice_fuel_bound (size fuel : nat) (buf : list Byte.byte) :
  Forall (fun c => (length c ≤ size)%nat) (GridFS.slice_fuel fuel size buf).
Proof.
  revert buf. induction fuel as [| fuel IH]; intros buf; [constructor |].
  destruct buf as [| b buf']; [constructor |].
  cbn [GridFS.slice_fuel]. constructor; [| apply IH].
  rewrite length_take. lia.
Qed.

Lemma insert_chunks_mono id cs : ∀ n budget coll k v,
  coll !! k = Some v →
  snd (GridFS.insert_chunks id n cs budget coll) !! k = Some v.
Proof.
  induction cs as [| c cs IH]; intros n budget coll k v L; [done |].
  cbn [GridFS.insert_chunks].
  assert (Hstep : snd (match coll !! (id, n) with
                       | Some _ => (Some Mongo.duplicate_key, coll)
                       | None => GridFS.insert_chunks id (n + 1) cs (Nat.pred <$> budget)
                                   (<[(id, n) := c]> coll)
                       end) !! k = Some v).
  { destruct (coll !! (id, n)) eqn:E; [done |].
    apply IH. rewrite lookup_insert_ne; [done | congruence]. }
  by destruct budget as [[| b] |].
Qed.

Lemma insert_chunks_stored id cs : ∀ n coll coll',
  GridFS.insert_chunks id n cs None coll = (None, coll') →
  ∀ (i : nat) c, cs !! i = Some c → coll' !! (id, n + N.of_nat i) = Some c.
Proof.
  induction cs as [| c0 cs IH]; intros n coll coll' H i c L; [done |].
  cbn [GridFS.insert_chunks fmap option_fmap option_map] in H.
  destruct (coll !! (id, n)) eqn:E; [done |].
  destruct i as [| i].
  - injection L as ->. rewrite N.add_0_r.
    pose proof (insert_chunks_mono id cs (n + 1) None (<[(id, n) := c]> coll) (id, n) c
                  (lookup_insert_eq _ _ _)) as M.
    by rewrite H in M.
  - replace (n + N.of_nat (S i)) with (n + 1 + N.of_nat i) by lia.
    by eapply IH.
Qed.

(** C9, as stated, fails: multer's memory storage hands the handler the whole
    file in one buffer, here 261121 bytes, more than a chunk holds. *)
Lemma whole_file_is_buffered :
  ∃ f,
    Multer.single (Some large_part) = inr (Some f)
    ∧ Multer.buffer f = concat (Multer.part_stream large_part)
    ∧ N.of_nat (length (Multer.buffer f)) = 261121
    ∧ GridFS.chunkSizeBytes {| GridFS.bucketName := "uploads" |}
      < N.of_nat (length (Multer.buffer f)).
Proof.
  assert (L : N.of_nat (length (concat (Multer.part_stream large_part))) = 261121).
  { cbn [large_part Multer.part_stream concat]. rewrite !length_app, !repeat_length.
    cbn [length]. lia. }
  exists (Multer.memoryStorage large_part).
  split; [| split; [done | split; [done |]]].
  - unfold Multer.single. rewrite L. done.
  - cbn [Multer.memoryStorage Multer.buffer]. rewrite L. done.
Qed.

(** C9, amended: the file part is first collected whole into one buffer by
    multer, which bounds it by the 20 MB limit rather than by a chunk; the
    write path then cuts that buffer into chunks of at most [chunkSizeBytes]
    bytes, stored in order under the upload's id. *)
Theorem upload_buffers_then_slices (p : Multer.part) (f : Multer.file) :
  Multer.single (Some p) = inr (Some f) →
  Multer.buffer f = concat (Multer.part_stream p)
  ∧ N.of_nat (length (Multer.buffer f)) <= Multer.fileSize
  ∧ ∀ bucket,
      let cs := GridFS.slice (N.to_nat (GridFS.chunkSizeBytes bucket)) (Multer.buffer f) in
      concat cs = Multer.buffer f
      ∧ Forall (fun c => N.of_nat (length c) <= GridFS.chunkSizeBytes bucket) cs
      ∧ ∀ fn ct env d d',
          GridFS.upload bucket fn ct (Multer.buffer f) env d = (None, d') →
          ∀ (i : nat) c, cs !! i = Some c →
            Mongo.chunks d' !! (Env.uploadStreamId env, N.of_nat i) = Some c.
Proof.
  unfold Multer.single.
  destruct (Multer.fileSize <? _) eqn:E; [done |].
  intros [= <-]. apply N.ltb_ge in E.
  split; [done |]. split; [done |].
  intros bucket. set (cs := GridFS.slice _ _).
  assert (Hs : (0 < N.to_nat (GridFS.chunkSizeBytes bucket))%nat)
    by (unfold GridFS.chunkSizeBytes; lia).
  split; [by apply slice_fuel_concat |]. split.
  - eapply Forall_impl; [apply slice_fuel_bound |]. cbn beta. intros c Hc. lia.
  - intros fn ct env d d' U i c L.
    unfold GridFS.upload in U. fold cs in U.
    destruct (Env.failure env Env.GridFSUpload).
    { by destruct (GridFS.insert_chunks _ _ _ _ _). }
    destruct (GridFS.insert_chunks _ _ _ _ _) as [[e |] coll] eqn:I; [done |].
    destruct (Mongo.files d !! Env.uploadStreamId env); [done |].
    injection U as <-. cbn [Mongo.chunks].
    by apply (insert_chunks_stored _ _ _ _ _ I i c).
Qed.

Lemma upload_buffers_then_slices_witness :
  Multer.buffer (Multer.memoryStorage one_byte) = [Byte.x25]
  ∧ N.of_nat (length (Multer.buffer (Multer.memoryStorage one_byte))) <= Multer.fileSize.
Proof.
  destruct (upload_buffers_then_slices one_byte (Multer.memoryStorage one_byte) eq_refl)
    as (B & L & _).
  split; [exact B | exact L].
Defined.

(** ** Round trip through the bucket *)

Lemma slice_fuel_count (sz fuel : nat) (buf : list Byte.byte) :
  (0 < sz)%nat → (length buf ≤ fuel)%nat →
  N.of_nat (length (GridFS.slice_fuel fuel sz buf))
  = GridFS.chunk_count (N.of_nat (length buf)) (N.of_nat sz).
Proof.
  intros Hs. unfold GridFS.chunk_count.
  destruct (N.eqb_spec (N.of_nat sz) 0) as [? | Hsz]; [lia |].
  revert buf. induction fuel as [| fuel IH]; intros buf Hl.
  - destruct buf; [| simpl in Hl; lia]. cbn [GridFS.slice_fuel length].
    symmetry. apply N.div_small. lia.
  - destruct buf as [| b buf']; [symmetry; apply N.div_small; cbn [length]; lia |].
    cbn [GridFS.slice_fuel]. rewrite length_cons, Nat2N.inj_succ, IH
      by (rewrite length_drop; simpl in *; lia).
    rewrite length_drop. set (len := length (b :: buf')).
    assert (0 < len)%nat by (subst len; simpl; lia).
    destruct (decide (len ≤ sz)%nat) as [Hle | Hgt].
    + replace (N.of_nat (len - sz)) with 0 by lia.
      rewrite (N.div_small (0 + N.of_nat sz - 1)) by lia.
      change (N.succ 0) with 1.
      apply (N.div_unique _ _ 1 (N.of_nat len - 1)); lia.
    + replace (N.of_nat len + N.of_nat sz - 1)
        with (N.of_nat (len - sz) + N.of_nat sz - 1 + 1 * N.of_nat sz) by lia.
      rewrite N.div_add by done. lia.
Qed.

Lemma read_chunks_slices id coll (sz : nat) : ∀ fuel buf n,
  (0 < sz)%nat → (length buf ≤ fuel)%nat →
  (∀ (i : nat) c, GridFS.slice_fuel fuel sz buf !! i = Some c →
     coll !! (id, n + N.of_nat i) = Some c) →
  GridFS.read_chunks (length (GridFS.slice_fuel fuel sz buf)) id n
    (N.of_nat (length buf)) (N.of_nat sz) coll
  = (GridFS.slice_fuel fuel sz buf, None).
Proof.
  induction fuel as [| fuel IH]; intros buf n Hs Hl Hc; [done |].
  destruct buf as [| b buf']; [done |].
  cbn [GridFS.slice_fuel length GridFS.read_chunks] in *.
  pose proof (Hc 0%nat _ eq_refl) as H0.
  change (N.of_nat 0) with 0 in H0. rewrite N.add_0_r in H0. rewrite H0.
  rewrite length_take. cbn [length].
  destruct (N.eqb_spec (N.of_nat (sz `min` S (length buf')))
              (N.min (N.of_nat sz) (N.of_nat (S (length buf'))))) as [_ | Hne]; [| lia].
  replace (N.of_nat (S (length buf')) - N.min (N.of_nat sz) (N.of_nat (S (length buf'))))
    with (N.of_nat (length (drop sz (b :: buf')))) by (rewrite length_drop; cbn [length]; lia).
  rewrite IH; [done | done | rewrite length_drop; cbn [length]; lia |].
  intros i c Hi. replace (n + 1 + N.of_nat i) with (n + N.of_nat (S i)) by lia.
  by apply Hc.
Qed.

(** A file that was uploaded without an error is read back whole: the
    download emits exactly the slices of the buffer, and they concatenate to
    it. *)
Lemma upload_then_download b fn ct buf env d d' env' :
  GridFS.upload b fn ct buf env d = (None, d') →
  Env.failure env' Env.GridFSDownload = None →
  GridFS.download b (Env.uploadStreamId env) env' d'
    = (GridFS.slice (N.to_nat (GridFS.chunkSizeBytes b)) buf, None)
  ∧ concat (GridFS.slice (N.to_nat (GridFS.chunkSizeBytes b)) buf) = buf.
Proof.
  intros U F.
  assert (Hs : (0 < N.to_nat (GridFS.chunkSizeBytes b))%nat)
    by (unfold GridFS.chunkSizeBytes; lia).
  split; [| by apply slice_fuel_concat].
  unfold GridFS.upload in U.
  destruct (Env.failure env Env.GridFSUpload).
  { by destruct (GridFS.insert_chunks _ _ _ _ _). }
  destruct (GridFS.insert_chunks _ _ _ _ _) as [[e |] coll] eqn:I; [done |].
  destruct (Mongo.files d !! Env.uploadStreamId env); [done |].
  injection U as <-.
  unfold GridFS.download. rewrite F. cbn [Mongo.files Mongo.chunks].
  rewrite lookup_insert_eq.
  cbn [Mongo.file_length Mongo.file_chunkSize].
  unfold GridFS.slice in *.
  set (sz := N.to_nat (GridFS.chunkSizeBytes b)) in *.
  replace (GridFS.chunkSizeBytes b) with (N.of_nat sz) by (subst sz; apply N2Nat.id).
  rewrite <- (slice_fuel_count sz (length buf) buf), Nat2N.id by done.
  apply read_chunks_slices; [done | done |].
  intros i c Hi. by apply (insert_chunks_stored _ _ _ _ _ I i c).
Qed.

(** * Further properties of the routes *)

(** ** Anatomy of the upload route *)

Lemma upload_ok b fn ct buf env d d' :
  GridFS.upload b fn ct buf env d = (None, d') →
  Env.failure env Env.GridFSUpload = None
  ∧ Mongo.files d !! Env.uploadStreamId env = None
  ∧ GridFS.insert_chunks (Env.uploadStreamId env) 0
      (GridFS.slice (N.to_nat (GridFS.chunkSizeBytes b)) buf) None (Mongo.chunks d)
    = (None, Mongo.chunks d')
  ∧ Mongo.files d' =
      <[Env.uploadStreamId env :=
          {| Mongo.file_length := N.of_nat (length buf);
             Mongo.file_chunkSize := GridFS.chunkSizeBytes b;
             Mongo.file_uploadDate := Env.now env;
             Mongo.file_filename := fn;
             Mongo.file_contentType := ct |}]> (Mongo.files d)
  ∧ Mongo.pdfs d' = Mongo.pdfs d.
Proof.
  unfold GridFS.upload.
  destruct (Env.failure env Env.GridFSUpload).
  { by destruct (GridFS.insert_chunks _ _ _ _ _). }
  destruct (GridFS.insert_chunks _ _ _ _ _) as [[e |] coll]; [done |].
  destruct (Mongo.files d !! Env.uploadStreamId env); [done |].
  by intros [= <-].
Qed.

(** Every 201 answer comes out of the same path: the file was written to the
    bucket, then the record built from the form was saved. *)
Lemma post_pdfs_201 req env st :
  Server.status (fst (Server.post_pdfs req env st)) = 201 →
  ∃ f bucket d1,
    Server.file req = Some f
    ∧ Server.gridfsBucket st = Some bucket
    ∧ GridFS.upload bucket (storage_name env f) (Multer.mimetype f) (Multer.buffer f) env
        (Server.db st) = (None, d1)
    ∧ Mongoose.validate (new_record env f (Server.body_of req)) = []
    ∧ Env.failure env Env.PdfSave = None
    ∧ Mongo.pdfs d1 !! Env.newPdfId env = None
    ∧ fst (Server.post_pdfs req env st) =
        {| Server.status := 201;
           Server.content := Server.Json_pdf (new_record env f (Server.body_of req)) |}
    ∧ Server.db (snd (Server.post_pdfs req env st)) =
        Mongo.with_pdfs d1
          (<[Env.newPdfId env := new_record env f (Server.body_of req)]> (Mongo.pdfs d1))
    ∧ Server.gridfsBucket (snd (Server.post_pdfs req env st)) = Some bucket.
Proof.
  unfold Server.post_pdfs.
  destruct (Server.file req) as [f |]; [| done].
  cbn [Server.say Server.gridfsBucket Server.db].
  destruct (Server.gridfsBucket st) as [bucket |] eqn:B; [| done].
  fold (storage_name env f).
  destruct (GridFS.upload _ _ _ _ _ _) as [[e |] d1] eqn:U; [done |].
  cbn [Server.with_db Server.say Server.db].
  fold (new_record env f (Server.body_of req)).
  destruct (Mongoose.save _ _ _) as [[e | saved] d2] eqn:S; [done |].
  intros _. exists f, bucket, d1.
  unfold Mongoose.save in S.
  destruct (Mongoose.validate _) eqn:V; [| done].
  destruct (Env.failure env Env.PdfSave) eqn:F; [done |].
  change (Pdf._id (new_record env f (Server.body_of req))) with (Env.newPdfId env) in S.
  destruct (Mongo.pdfs d1 !! Env.newPdfId env) eqn:L; [done |].
  injection S as <- <-. cbn. done.
Qed.

(** ** Uploads larger than the limit *)

(** X1: a file part longer than 20 MiB never reaches the handler: multer
    aborts, the last error middleware answers 500 with multer's message, and
    neither the database nor the bucket handle changes. *)
Theorem oversize_upload_rejected (u : Server.upload) (p : Multer.part) (env : Env.t)
    (st : Server.state) :
  Server.file_part u = Some p →
  Multer.fileSize < N.of_nat (length (concat (Multer.part_stream p))) →
  fst (Server.route_post_pdfs u env st) =
    {| Server.status := 500;
       Server.content :=
         Server.Json_error_details "An internal server error occurred" "File too large" |}
  ∧ Server.db (snd (Server.route_post_pdfs u env st)) = Server.db st
  ∧ Server.gridfsBucket (snd (Server.route_post_pdfs u env st)) = Server.gridfsBucket st
  ∧ Server.console (snd (Server.route_post_pdfs u env st)) =
      Server.console st ++ [(Server.Error, "🔥 GLOBAL SERVER ERROR: File too large")].
Proof.
  intros Hp Hl. unfold Server.route_post_pdfs, Multer.single. rewrite Hp.
  apply N.ltb_lt in Hl. rewrite Hl. done.
Qed.

Lemma oversize_part_length :
  Multer.fileSize < N.of_nat (length (concat (Multer.part_stream oversize_part))).
Proof.
  unfold oversize_part, Multer.part_stream, Multer.fileSize.
  cbn [concat]. rewrite app_nil_r, repeat_length. lia.
Qed.

Lemma oversize_upload_rejected_witness :
  Server.db (snd (Server.route_post_pdfs
      {| Server.file_part := Some oversize_part; Server.fields := form0 "A" "B" JS.undefined |}
      (env0 1 2 1000) (Server.on_open (Server.init Mongo.empty))))
  = Server.db (Server.on_open (Server.init Mongo.empty)).
Proof.
  apply (oversize_upload_rejected
           {| Server.file_part := Some oversize_part;
              Server.fields := form0 "A" "B" JS.undefined |}
           oversize_part (env0 1 2 1000) (Server.on_open (Server.init Mongo.empty)) eq_refl).
  exact oversize_part_length.
Defined.

(** ** What an upload may change *)

Lemma route_post_pdfs_multer_ok u env st f :
  Multer.single (Server.file_part u) = inr f →
  Server.route_post_pdfs u env st =
    Server.post_pdfs {| Server.file := f; Server.body_of := Server.fields u |} env st.
Proof. intros H. unfold Server.route_post_pdfs. by rewrite H. Qed.

Lemma route_post_pdfs_multer_error u env st e :
  Multer.single (Server.file_part u) = inl e →
  Server.route_post_pdfs u env st = Server.global_error_handler e st.
Proof. intros H. unfold Server.route_post_pdfs. by rewrite H. Qed.

(** X2: the upload route never replaces or removes a metadata record: every
    record stored before is stored unchanged after, and the collection grows
    by exactly one record, under a fresh id, when the answer is 201 and not at
    all otherwise. *)
Theorem upload_only_adds (u : Server.upload) (env : Env.t) (st : Server.state) :
  let out := Server.route_post_pdfs u env st in
  (∀ k doc, Mongo.pdfs (Server.db st) !! k = Some doc →
     Mongo.pdfs (Server.db (snd out)) !! k = Some doc)
  ∧ (Server.status (fst out) = 201 →
       Mongo.pdfs (Server.db st) !! Env.newPdfId env = None
       ∧ size (Mongo.pdfs (Server.db (snd out))) = S (size (Mongo.pdfs (Server.db st))))
  ∧ (Server.status (fst out) ≠ 201 →
       Mongo.pdfs (Server.db (snd out)) = Mongo.pdfs (Server.db st)).
Proof.
  intros out. subst out.
  destruct (Multer.single (Server.file_part u)) as [e | f] eqn:M.
  { rewrite (route_post_pdfs_multer_error _ _ _ _ M). cbn. done. }
  rewrite (route_post_pdfs_multer_ok _ _ _ _ M).
  set (req := {| Server.file := f; Server.body_of := Server.fields u |}).
  destruct (decide (Server.status (fst (Server.post_pdfs req env st)) = 201)) as [C | C].
  - destruct (post_pdfs_201 req env st C) as (f' & b & d1 & _ & _ & U & _ & _ & L & _ & D & _).
    apply upload_ok in U as (_ & _ & _ & _ & P).
    rewrite D. cbn [Mongo.with_pdfs Mongo.pdfs]. rewrite P in *.
    split; [| split; [| done]].
    + intros k doc Hk. rewrite lookup_insert_ne; [done | congruence].
    + intros _. split; [done |]. by apply map_size_insert_None.
  - pose proof (post_pdfs_not_created req env st C) as H. rewrite H.
    split; [done |]. split; [done | done].
Qed.

(** ** When an upload succeeds *)

Lemma insert_chunks_fresh id cs : ∀ n coll,
  (∀ m, n <= m → coll !! (id, m) = None) →
  fst (GridFS.insert_chunks id n cs None coll) = None.
Proof.
  induction cs as [| c cs IH]; intros n coll H; [done |].
  cbn [GridFS.insert_chunks fmap option_fmap option_map].
  rewrite (H n) by lia. apply IH. intros m Hm.
  rewrite lookup_insert_ne; [apply H; lia | intros [= ?]; lia].
Qed.

Lemma upload_fresh b fn ct buf env d :
  Env.failure env Env.GridFSUpload = None →
  Mongo.files d !! Env.uploadStreamId env = None →
  no_chunks_of (Env.uploadStreamId env) (Mongo.chunks d) →
  fst (GridFS.upload b fn ct buf env d) = None.
Proof.
  intros F L C. unfold GridFS.upload. rewrite F.
  pose proof (insert_chunks_fresh (Env.uploadStreamId env)
                (GridFS.slice (N.to_nat (GridFS.chunkSizeBytes b)) buf) 0 (Mongo.chunks d)
                (fun m _ => C m)) as I.
  destruct (GridFS.insert_chunks _ _ _ _ _) as [e coll]. simpl in I. subst e.
  by rewrite L.
Qed.

Lemma validate_nil doc :
  JS.truthy (Pdf.title doc) = true → JS.truthy (Pdf.category doc) = true →
  Mongoose.validate doc = [].
Proof.
  intros T C. unfold Mongoose.validate, Mongoose.pdfSchema, Mongoose.checkRequired.
  simpl. by rewrite T, C.
Qed.

(** X3: an upload with a file, a non-empty title and category, an open
    bucket, fresh ids and no database failure is answered 201 with the record
    built from the form and the file, and that record is added to [pdfs]. *)
Theorem upload_succeeds (req : Server.request) (f : Multer.file) (bucket : GridFS.bucket)
    (env : Env.t) (st : Server.state) :
  let form := Server.body_of req in
  let doc := new_record env f form in
  let out := Server.post_pdfs req env st in
  Server.file req = Some f →
  Server.gridfsBucket st = Some bucket →
  JS.truthy (Server.title form) = true →
  JS.truthy (Server.category form) = true →
  Env.failure env Env.GridFSUpload = None →
  Env.failure env Env.PdfSave = None →
  Mongo.files (Server.db st) !! Env.uploadStreamId env = None →
  no_chunks_of (Env.uploadStreamId env) (Mongo.chunks (Server.db st)) →
  Mongo.pdfs (Server.db st) !! Env.newPdfId env = None →
  fst out = {| Server.status := 201; Server.content := Server.Json_pdf doc |}
  ∧ Mongo.pdfs (Server.db (snd out)) = <[Env.newPdfId env := doc]> (Mongo.pdfs (Server.db st))
  ∧ Pdf._id doc = Env.newPdfId env
  ∧ Pdf.title doc = Server.title form
  ∧ Pdf.category doc = Server.category form
  ∧ Pdf.description doc = Server.description form
  ∧ Pdf.fileId doc = Env.uploadStreamId env
  ∧ Pdf.fileName doc = Multer.originalname f
  ∧ Pdf.createdAt doc = Env.now env.
Proof.
  intros form doc out Hf Hb Ht Hc Fu Fs Lf Lc Lp.
  assert (C : Server.status (fst out) = 201).
  { subst out. unfold Server.post_pdfs. rewrite Hf.
    cbn [Server.say Server.gridfsBucket Server.db]. rewrite Hb.
    fold (storage_name env f).
    pose proof (upload_fresh bucket (storage_name env f) (Multer.mimetype f)
                  (Multer.buffer f) env (Server.db st) Fu Lf Lc) as U.
    pose proof (upload_pdfs bucket (storage_name env f) (Multer.mimetype f)
                  (Multer.buffer f) env (Server.db st)) as P.
    destruct (GridFS.upload _ _ _ _ _ _) as [e d1]. simpl in U, P. subst e.
    cbn [Server.with_db Server.say Server.db].
    fold (new_record env f (Server.body_of req)).
    unfold Mongoose.save. rewrite validate_nil by done. rewrite Fs.
    change (Pdf._id (new_record env f (Server.body_of req))) with (Env.newPdfId env).
    by rewrite P, Lp. }
  destruct (post_pdfs_201 req env st C) as (f' & b' & d1 & Hf' & _ & U & _ & _ & _ & R & D & _).
  rewrite Hf in Hf'. injection Hf' as <-.
  apply upload_ok in U as (_ & _ & _ & _ & P).
  split; [done |]. split; [| done].
  fold out in D. rewrite D. cbn [Mongo.with_pdfs Mongo.pdfs]. by rewrite P.
Qed.

Lemma no_chunks_of_empty id : no_chunks_of id ∅.
Proof. intros n. apply lookup_empty. Qed.

Lemma upload_succeeds_witness :
  Server.status (fst (Server.post_pdfs (request0 (JS.str "15")) (env0 1 2 1000)
                        (Server.on_open (Server.init Mongo.empty)))) = 201.
Proof.
  destruct (upload_succeeds (request0 (JS.str "15")) (Multer.memoryStorage one_byte) uploads
              (env0 1 2 1000) (Server.on_open (Server.init Mongo.empty))
              eq_refl eq_refl eq_refl eq_refl eq_refl eq_refl eq_refl
              (no_chunks_of_empty 1) eq_refl)
    as [R _].
  rewrite R. reflexivity.
Defined.

(** X4: every record the upload route creates references a blob that the
    same request has just created: the [files] document did not exist
    before, exists after, and carries the length of the uploaded buffer, its
    MIME type and the generated storage name; no other [files] document is
    touched. *)
Theorem created_record_references_blob (req : Server.request) (env : Env.t)
    (st : Server.state) :
  let out := Server.post_pdfs req env st in
  Server.status (fst out) = 201 →
  ∃ f doc fd,
    Server.file req = Some f
    ∧ Server.content (fst out) = Server.Json_pdf doc
    ∧ Mongo.pdfs (Server.db (snd out)) !! Pdf._id doc = Some doc
    ∧ Pdf.fileId doc = Env.uploadStreamId env
    ∧ Pdf.fileName doc = Multer.originalname f
    ∧ Pdf.createdAt doc = Env.now env
    ∧ Mongo.files (Server.db st) !! Pdf.fileId doc = None
    ∧ Mongo.files (Server.db (snd out)) !! Pdf.fileId doc = Some fd
    ∧ Mongo.file_length fd = N.of_nat (length (Multer.buffer f))
    ∧ Mongo.file_contentType fd = Multer.mimetype f
    ∧ Mongo.file_filename fd = storage_name env f
    ∧ (∀ k, k ≠ Pdf.fileId doc →
         Mongo.files (Server.db (snd out)) !! k = Mongo.files (Server.db st) !! k).
Proof.
  intros out C.
  destruct (post_pdfs_201 req env st C) as (f & b & d1 & Hf & _ & U & _ & _ & _ & R & D & _).
  apply upload_ok in U as (_ & L & _ & F & _).
  fold out in R, D.
  eexists f, (new_record env f (Server.body_of req)), _.
  rewrite R, D. cbn [Mongo.with_pdfs Mongo.pdfs Mongo.files Server.content]. rewrite F.
  change (Pdf.fileId (new_record env f (Server.body_of req))) with (Env.uploadStreamId env).
  change (Pdf._id (new_record env f (Server.body_of req))) with (Env.newPdfId env).
  split; [done |]. split; [done |]. split; [apply lookup_insert_eq |].
  split; [done |]. split; [done |]. split; [done |]. split; [done |].
  split; [apply lookup_insert_eq |].
  split; [done |]. split; [done |]. split; [done |].
  intros k Hk. by rewrite lookup_insert_ne.
Qed.

Lemma created_record_references_blob_witness :
  ∃ f doc fd,
    Server.file (request0 JS.undefined) = Some f
    ∧ Mongo.files (Server.db (snd (Server.post_pdfs (request0 JS.undefined) (env0 1 2 1000)
          (Server.on_open (Server.init Mongo.empty))))) !! Pdf.fileId doc = Some fd
    ∧ Mongo.file_length fd = N.of_nat (length (Multer.buffer f)).
Proof.
  destruct (created_record_references_blob (request0 JS.undefined) (env0 1 2 1000)
              (Server.on_open (Server.init Mongo.empty)))
    as (f & doc & fd & Hf & _ & _ & _ & _ & _ & _ & F & L & _).
  - vm_compute. reflexivity.
  - exists f, doc, fd. split; [exact Hf |]. split; [exact F | exact L].
Defined.

(** ** Object ids as text *)

Lemma hex_digits_length n x : length (Hex.digits n x) = n.
Proof.
  revert x. induction n as [| n IH]; intros x; [done |].
  cbn [Hex.digits]. rewrite length_app, IH. simpl. lia.
Qed.

Lemma digit_of_digit d : d < 16 → JS.digit_of (Hex.digit d) = Some d.
Proof.
  intros H.
  assert (d = 0 ∨ d = 1 ∨ d = 2 ∨ d = 3 ∨ d = 4 ∨ d = 5 ∨ d = 6 ∨ d = 7 ∨ d = 8 ∨ d = 9
          ∨ d = 10 ∨ d = 11 ∨ d = 12 ∨ d = 13 ∨ d = 14 ∨ d = 15) as E by lia.
  repeat (destruct E as [-> | E]; [reflexivity |]). by subst.
Qed.

Lemma radix_digits_snoc base l c ds d :
  JS.radix_digits base l = Some ds → JS.digit_of c = Some d → d < base →
  JS.radix_digits base (l ++ [c]) = Some (ds ++ [d]).
Proof.
  revert ds. induction l as [| a l IH]; intros ds Hl Hc Hd.
  - injection Hl as <-. cbn. rewrite Hc. apply N.ltb_lt in Hd. by rewrite Hd.
  - cbn in *. destruct (JS.digit_of a) as [x |]; [| done].
    destruct (x <? base); [| done].
    destruct (JS.radix_digits base l) as [ds' |]; [| done].
    injection Hl as <-. by rewrite (IH ds').
Qed.

Lemma hex_digits_parse n x :
  ∃ ds, JS.radix_digits 16 (Hex.digits n x) = Some ds
        ∧ JS.digits_value 16 ds = x mod 16 ^ N.of_nat n.
Proof.
  revert x. induction n as [| n IH]; intros x.
  - exists []. split; [done |]. cbn. by rewrite N.mod_1_r.
  - destruct (IH (x / 16)) as (ds & R & V).
    exists (ds ++ [x mod 16]). cbn [Hex.digits]. split.
    + apply radix_digits_snoc; [done | |].
      * apply digit_of_digit. by apply N.mod_lt.
      * by apply N.mod_lt.
    + unfold JS.digits_value in *. rewrite fold_left_app. cbn [fold_left]. rewrite V.
      rewrite Nat2N.inj_succ, N.pow_succ_r'.
      rewrite N.Div0.mod_mul_r. lia.
Qed.

(** X5: object ids and their text form.  An id below [2^96] printed as 24
    hexadecimal digits is read back as the same id, and no string of another
    length is read as an id. *)
Theorem object_id_text_round_trip (id : Bson.ObjectId) (s : string) :
  (id < 2 ^ 96 → Bson.parse (Bson.toHexString id) = Some id)
  ∧ String.length (Bson.toHexString id) = 24%nat
  ∧ (String.length s ≠ 24%nat → Bson.parse s = None).
Proof.
  split; [| split].
  - intros H. unfold Bson.parse, Bson.toHexString, Hex.of_N.
    rewrite list_ascii_of_string_of_list_ascii, hex_digits_length. cbn [Nat.eqb].
    destruct (hex_digits_parse 24 id) as (ds & -> & V). rewrite V.
    f_equal. apply N.mod_small. exact H.
  - unfold Bson.toHexString, Hex.of_N.
    rewrite <- (hex_digits_length 24 id) at 2.
    generalize (Hex.digits 24 id). intros l. induction l as [| c l IH]; [done |].
    cbn. by rewrite IH.
  - intros H. unfold Bson.parse.
    assert (E : length (list_ascii_of_string s) = String.length s).
    { clear H. induction s as [| c s IH]; [done |]. cbn. by rewrite IH. }
    rewrite E. destruct (Nat.eqb_spec (String.length s) 24); [done | done].
Qed.

(** ** Uploading, then reading *)

Lemma download_with_pdfs b id env d m :
  GridFS.download b id env (Mongo.with_pdfs d m) = GridFS.download b id env d.
Proof. done. Qed.

(** X6: what was uploaded is what is served.  After a 201, a file request
    for the id of the new blob is answered 200 as [application/pdf] with
    chunks that concatenate to exactly the uploaded bytes, whatever the size
    of the file, and leaves the server as it was. *)
Theorem upload_then_get_file (req : Server.request) (env env' : Env.t) (st : Server.state)
    (id : string) :
  let out := Server.post_pdfs req env st in
  Server.status (fst out) = 201 →
  Bson.parse id = Some (Env.uploadStreamId env) →
  Env.failure env' Env.GridFSDownload = None →
  ∃ f data,
    Server.file req = Some f
    ∧ Server.get_file id env' (snd out) =
        ({| Server.status := 200;
            Server.content := Server.Stream "application/pdf" data true |}, snd out)
    ∧ concat data = Multer.buffer f.
Proof.
  intros out C Hid F.
  destruct (post_pdfs_201 req env st C) as (f & b & d1 & Hf & _ & U & _ & _ & _ & _ & D & B).
  fold out in D, B.
  destruct (upload_then_download _ _ _ _ _ _ _ env' U F) as [Dl Cc].
  exists f, (GridFS.slice (N.to_nat (GridFS.chunkSizeBytes b)) (Multer.buffer f)).
  split; [done |]. split; [| done].
  rewrite (get_file_cases id _ b env' _ B Hid), D, download_with_pdfs, Dl.
  by destruct (GridFS.slice _ _).
Qed.

Lemma upload_then_get_file_witness :
  ∃ data,
    fst (Server.get_file (hex24 1) (env0 3 4 2000)
           (snd (Server.post_pdfs (request0 JS.undefined) (env0 1 2 1000)
                   (Server.on_open (Server.init Mongo.empty))))) =
      {| Server.status := 200; Server.content := Server.Stream "application/pdf" data true |}
    ∧ concat data = [Byte.x25].
Proof.
  destruct (upload_then_get_file (request0 JS.undefined) (env0 1 2 1000) (env0 3 4 2000)
              (Server.on_open (Server.init Mongo.empty)) (hex24 1))
    as (f & data & Hf & G & Cc).
  - vm_compute. reflexivity.
  - vm_compute. reflexivity.
  - reflexivity.
  - exists data. injection Hf as <-. rewrite G. split; [reflexivity | exact Cc].
Defined.

(** X7: a failed write is never visible.  When the GridFS write of an upload
    fails, whatever chunks it left behind, a later file request for the id of
    that upload is answered 404, provided the id was not in use before. *)
Theorem failed_upload_not_retrievable (req : Server.request) (f : Multer.file)
    (bucket : GridFS.bucket) (env env' : Env.t) (st : Server.state) (msg id : string) :
  let out := Server.post_pdfs req env st in
  Server.file req = Some f →
  Server.gridfsBucket st = Some bucket →
  Env.failure env Env.GridFSUpload = Some msg →
  Mongo.files (Server.db st) !! Env.uploadStreamId env = None →
  Bson.parse id = Some (Env.uploadStreamId env) →
  Server.get_file id env' (snd out) =
    ({| Server.status := 404; Server.content := Server.Json_error "Document content not found" |},
     snd out).
Proof.
  intros out Hf Hb Hfail L Hid. subst out. unfold Server.post_pdfs.
  rewrite Hf. cbn [Server.say Server.gridfsBucket Server.db]. rewrite Hb.
  destruct (GridFS.upload _ _ _ _ _ _) as [e d1] eqn:U.
  pose proof (upload_io_failure bucket
    (Hex.of_bytes (Env.randomBytes env) ++ Path.extname (Multer.originalname f))%string
    (Multer.mimetype f) (Multer.buffer f) env (Server.db st) msg Hfail) as E.
  rewrite U in E. simpl in E. subst e.
  pose proof (upload_failed_files _ _ _ _ _ _ _ _ U) as Fl.
  cbn [snd Server.upload_failure].
  erewrite (get_file_cases id (Env.uploadStreamId env) bucket env'); [| exact Hb | exact Hid].
  unfold GridFS.download. cbn [Server.say Server.with_db Server.db]. rewrite Fl, L.
  by destruct (Env.failure env' Env.GridFSDownload).
Qed.

Lemma failed_upload_not_retrievable_witness :
  let st := snd (Server.post_pdfs (request0 JS.undefined) env_write_fails_late
                   (Server.on_open (Server.init Mongo.empty))) in
  Mongo.chunks (Server.db st) !! (1, 0) = Some [Byte.x25]
  ∧ Server.status (fst (Server.get_file (hex24 1) (env0 3 4 2000) st)) = 404.
Proof.
  split; [vm_compute; reflexivity |].
  rewrite (failed_upload_not_retrievable (request0 JS.undefined) (Multer.memoryStorage one_byte)
             uploads env_write_fails_late (env0 3 4 2000)
             (Server.on_open (Server.init Mongo.empty)) "socket closed" (hex24 1)
             eq_refl eq_refl eq_refl eq_refl eq_refl).
  reflexivity.
Defined.

(** ** A record that cannot be saved *)

(** X8: no compensation when the record is not saved.  If the file was
    written to the bucket under a fresh id and the answer is still not 201
    (validation or the insert failed), the answer is 500, [pdfs] is
    unchanged, and the blob just written stays in the bucket, complete and
    readable, while no stored record has it as its [fileId]. *)
Theorem unsaved_record_leaves_blob (req : Server.request) (f : Multer.file)
    (bucket : GridFS.bucket) (env : Env.t) (st : Server.state) :
  let out := Server.post_pdfs req env st in
  Server.file req = Some f →
  Server.gridfsBucket st = Some bucket →
  Env.failure env Env.GridFSUpload = None →
  Mongo.files (Server.db st) !! Env.uploadStreamId env = None →
  no_chunks_of (Env.uploadStreamId env) (Mongo.chunks (Server.db st)) →
  (∀ k doc, Mongo.pdfs (Server.db st) !! k = Some doc →
     Pdf.fileId doc ≠ Env.uploadStreamId env) →
  Server.status (fst out) ≠ 201 →
  Server.status (fst out) = 500
  ∧ Mongo.pdfs (Server.db (snd out)) = Mongo.pdfs (Server.db st)
  ∧ (∀ k doc, Mongo.pdfs (Server.db (snd out)) !! k = Some doc →
       Pdf.fileId doc ≠ Env.uploadStreamId env)
  ∧ is_Some (Mongo.files (Server.db (snd out)) !! Env.uploadStreamId env)
  ∧ ∀ env', Env.failure env' Env.GridFSDownload = None →
      ∃ data, GridFS.download bucket (Env.uploadStreamId env) env' (Server.db (snd out))
                = (data, None)
              ∧ concat data = Multer.buffer f.
Proof.
  intros out Hf Hb Fu Lf Lc Hr C.
  split; [| split; [by apply post_pdfs_not_created |]].
  2: split; [intros k doc; subst out; rewrite (post_pdfs_not_created req env st C); apply Hr |].
  - revert C. subst out. unfold Server.post_pdfs. rewrite Hf.
    cbn [Server.say Server.gridfsBucket Server.db]. rewrite Hb.
    destruct (GridFS.upload _ _ _ _ _ _) as [[e |] d1]; [done |].
    cbn [Server.with_db Server.say Server.db].
    by destruct (Mongoose.save _ _ _) as [[e | saved] d2].
  - pose proof (upload_fresh bucket (storage_name env f) (Multer.mimetype f)
                  (Multer.buffer f) env (Server.db st) Fu Lf Lc) as U.
    revert C. subst out. unfold Server.post_pdfs. rewrite Hf.
    cbn [Server.say Server.gridfsBucket Server.db]. rewrite Hb.
    fold (storage_name env f).
    destruct (GridFS.upload _ _ _ _ _ _) as [e d1] eqn:Up. simpl in U. subst e.
    cbn [Server.with_db Server.say Server.db].
    destruct (Mongoose.save _ _ _) as [[e | saved] d2] eqn:S; [| done].
    apply save_inl in S as ->. intros _.
    cbn [snd Server.upload_failure Server.say Server.with_db Server.db].
    split.
    + apply upload_ok in Up as (_ & _ & _ & -> & _). rewrite lookup_insert_eq. by eexists.
    + intros env' F. destruct (upload_then_download _ _ _ _ _ _ _ env' Up F) as [D Cc].
      by eexists.
Qed.

Lemma unsaved_record_leaves_blob_witness :
  let out := Server.post_pdfs (request0 JS.undefined) env_save_fails
               (Server.on_open (Server.init Mongo.empty)) in
  Server.status (fst out) = 500
  ∧ is_Some (Mongo.files (Server.db (snd out)) !! 1).
Proof.
  destruct (unsaved_record_leaves_blob (request0 JS.undefined) (Multer.memoryStorage one_byte)
              uploads env_save_fails (Server.on_open (Server.init Mongo.empty))
              eq_refl eq_refl eq_refl eq_refl (no_chunks_of_empty 1))
    as (S & _ & _ & F & _).
  - intros k doc L. vm_compute in L. discriminate L.
  - vm_compute. discriminate.
  - split; [exact S | exact F].
Defined.

(** ** Uploading, then listing *)

(** X9: a new record shows up in the listing.  After a 201 the listing holds
    the new record and one entry more than there were records before; when
    the new record is younger than every record stored before, it comes
    first. *)
Theorem upload_then_list (req : Server.request) (env env' : Env.t) (st : Server.state) :
  let out := Server.post_pdfs req env st in
  Server.status (fst out) = 201 →
  Env.failure env' Env.PdfFind = None →
  ∃ doc docs,
    Server.content (fst out) = Server.Json_pdf doc
    ∧ fst (Server.get_pdfs env' (snd out)) =
        {| Server.status := 200; Server.content := Server.Json_pdfs docs |}
    ∧ doc ∈ docs
    ∧ length docs = S (size (Mongo.pdfs (Server.db st)))
    ∧ ((∀ k old, Mongo.pdfs (Server.db st) !! k = Some old →
          (Pdf.createdAt old < Pdf.createdAt doc)%Z) →
       head docs = Some doc).
Proof.
  intros out C F.
  destruct (post_pdfs_created req env st C) as (f & doc & _ & Ct & M & L & _).
  fold out in Ct, M.
  destruct (find_sorted_spec env' (Server.db (snd out)) F) as (docs & Fs & P & S).
  exists doc, docs. unfold Server.get_pdfs. rewrite Fs. cbn [fst].
  assert (E : ∀ x, x ∈ docs ↔
                x = doc ∨ ∃ k, Mongo.pdfs (Server.db st) !! k = Some x).
  { intros x. rewrite P, list_elem_of_fmap. split.
    - intros ([k x'] & -> & Hk). apply elem_of_map_to_list in Hk.
      rewrite M in Hk. apply lookup_insert_Some in Hk as [[_ <-] | [_ Hk]]; [by left |].
      right. by exists k.
    - intros [-> | (k & Hk)].
      + exists (Pdf._id doc, doc). split; [done |]. apply elem_of_map_to_list.
        rewrite M. apply lookup_insert_eq.
      + exists (k, x). split; [done |]. apply elem_of_map_to_list.
        rewrite M. rewrite lookup_insert_ne; [done | congruence]. }
  split; [done |]. split; [done |]. split; [apply E; by left |]. split.
  - rewrite P, length_fmap, length_map_to_list, M. by apply map_size_insert_None.
  - intros Hold. destruct docs as [| h tl].
    { exfalso. eapply not_elem_of_nil, E. by left. }
    cbn [head]. f_equal.
    assert (Hh0 : h ∈ h :: tl) by left.
    apply E in Hh0 as [Eq | (k & Hk)]; [done |].
    exfalso. apply StronglySorted_cons in S as [Hh _].
    assert (Hd : doc ∈ h :: tl) by (apply E; by left).
    apply elem_of_cons in Hd as [Eq | Hd].
    + specialize (Hold k h Hk). rewrite Eq in Hold. lia.
    + rewrite Forall_forall in Hh. specialize (Hh doc Hd).
      unfold Mongoose.newer_first in Hh. specialize (Hold k h Hk). lia.
Qed.

Lemma upload_then_list_witness :
  ∃ doc docs,
    fst (Server.get_pdfs (env0 0 0 0)
           (snd (Server.post_pdfs (request0 JS.undefined) (env0 1 2 1000)
                   (Server.on_open (Server.init Mongo.empty))))) =
      {| Server.status := 200; Server.content := Server.Json_pdfs docs |}
    ∧ head docs = Some doc.
Proof.
  destruct (upload_then_list (request0 JS.undefined) (env0 1 2 1000) (env0 0 0 0)
              (Server.on_open (Server.init Mongo.empty)))
    as (doc & docs & _ & G & _ & _ & H).
  - vm_compute. reflexivity.
  - reflexivity.
  - exists doc, docs. split; [exact G |]. apply H.
    intros k old Hk. vm_compute in Hk. discriminate Hk.
Defined.

(** ** Deleting *)

Lemma insert_chunks_other id cs : ∀ n budget coll k,
  fst k ≠ id →
  snd (GridFS.insert_chunks id n cs budget coll) !! k = coll !! k.
Proof.
  induction cs as [| c cs IH]; intros n budget coll k Hk; [done |].
  cbn [GridFS.insert_chunks].
  assert (Hstep : snd (match coll !! (id, n) with
                       | Some _ => (Some Mongo.duplicate_key, coll)
                       | None => GridFS.insert_chunks id (n + 1) cs (Nat.pred <$> budget)
                                   (<[(id, n) := c]> coll)
                       end) !! k = coll !! k).
  { destruct (coll !! (id, n)) eqn:E; [done |].
    rewrite IH by done. apply lookup_insert_ne. intros <-. by apply Hk. }
  by destruct budget as [[| b] |].
Qed.

Lemma gridfs_delete_ok b id env d :
  Env.failure env Env.GridFSDelete = None →
  Mongo.files (snd (GridFS.delete b id env d)) = base.delete id (Mongo.files d)
  ∧ no_chunks_of id (Mongo.chunks (snd (GridFS.delete b id env d)))
  ∧ (∀ k, fst k ≠ id →
       Mongo.chunks (snd (GridFS.delete b id env d)) !! k = Mongo.chunks d !! k)
  ∧ (is_Some (Mongo.files d !! id) → fst (GridFS.delete b id env d) = None).
Proof.
  intros F. unfold GridFS.delete. rewrite F.
  assert (C : no_chunks_of id (filter (fun kv => fst (fst kv) ≠ id) (Mongo.chunks d))).
  { intros n. apply map_lookup_filter_None. right. intros x _ H. by apply H. }
  assert (O : ∀ k, fst k ≠ id →
            filter (fun kv : Bson.ObjectId * N * list Byte.byte => fst (fst kv) ≠ id)
              (Mongo.chunks d) !! k = Mongo.chunks d !! k).
  { intros k Hk. destruct (Mongo.chunks d !! k) as [x |] eqn:E.
    - by apply map_lookup_filter_Some.
    - apply map_lookup_filter_None. by left. }
  destruct (Mongo.files d !! id) eqn:L; cbn [fst snd Mongo.files Mongo.chunks].
  - done.
  - repeat split; try done; by intros [? ?].
Qed.

Lemma gridfs_delete_frame b id env d :
  (∀ k, k ≠ id →
     Mongo.files (snd (GridFS.delete b id env d)) !! k = Mongo.files d !! k)
  ∧ (∀ k, fst k ≠ id →
       Mongo.chunks (snd (GridFS.delete b id env d)) !! k = Mongo.chunks d !! k).
Proof.
  destruct (Env.failure env Env.GridFSDelete) as [msg |] eqn:F.
  - unfold GridFS.delete. rewrite F. done.
  - destruct (gridfs_delete_ok b id env d F) as (Fl & _ & O & _).
    split; [| done]. intros k Hk. rewrite Fl. by apply lookup_delete_ne.
Qed.

Lemma findById_Some id env d pdf :
  Mongoose.findById id env d = inr (Some pdf) →
  ∃ oid, Bson.parse id = Some oid ∧ Mongo.pdfs d !! oid = Some pdf.
Proof.
  unfold Mongoose.findById, Mongoose.castObjectId.
  destruct (Bson.parse id) as [oid |]; [| done].
  destruct (Env.failure env Env.PdfFindById); [done |].
  intros [= H]. by exists oid.
Qed.

Lemma cleanup_bucket pdf env st :
  Server.gridfsBucket (Server.cleanup pdf env st) = Server.gridfsBucket st.
Proof.
  unfold Server.cleanup. destruct (Server.gridfsBucket st) as [b |] eqn:B; [| done].
  by destruct (GridFS.delete _ _ _ _) as [[e |] d].
Qed.

Lemma cleanup_ok pdf bucket env st :
  Server.gridfsBucket st = Some bucket →
  Env.failure env Env.GridFSDelete = None →
  Mongo.files (Server.db (Server.cleanup pdf env st))
    = base.delete (Pdf.fileId pdf) (Mongo.files (Server.db st))
  ∧ no_chunks_of (Pdf.fileId pdf) (Mongo.chunks (Server.db (Server.cleanup pdf env st)))
  ∧ (∀ k, fst k ≠ Pdf.fileId pdf →
       Mongo.chunks (Server.db (Server.cleanup pdf env st)) !! k
       = Mongo.chunks (Server.db st) !! k)
  ∧ (is_Some (Mongo.files (Server.db st) !! Pdf.fileId pdf) →
       Server.console (Server.cleanup pdf env st) = Server.console st).
Proof.
  intros B F. unfold Server.cleanup. rewrite B.
  destruct (gridfs_delete_ok bucket (Pdf.fileId pdf) env (Server.db st) F) as (Fl & C & O & S).
  destruct (GridFS.delete _ _ _ _) as [[e |] d]; cbn in *; repeat split; try done.
  intros H. by specialize (S H).
Qed.

(** X10: deleting what was just uploaded undoes the upload.  After a 201, a
    delete of the new record's id with no database failure is answered 200
    without a warning; [pdfs] and [uploads.files] are back to what they were
    before the upload, and no chunk of the blob remains. *)
Theorem upload_then_delete (req : Server.request) (env env' : Env.t) (st : Server.state)
    (id : string) :
  let out := Server.post_pdfs req env st in
  let out' := Server.delete_pdf id env' (snd out) in
  Server.status (fst out) = 201 →
  Bson.parse id = Some (Env.newPdfId env) →
  Env.failure env' Env.PdfFindById = None →
  Env.failure env' Env.GridFSDelete = None →
  Env.failure env' Env.PdfFindByIdAndDelete = None →
  fst out' =
    {| Server.status := 200; Server.content := Server.Json_message "PDF deleted successfully" |}
  ∧ Mongo.pdfs (Server.db (snd out')) = Mongo.pdfs (Server.db st)
  ∧ Mongo.files (Server.db (snd out')) = Mongo.files (Server.db st)
  ∧ no_chunks_of (Env.uploadStreamId env) (Mongo.chunks (Server.db (snd out')))
  ∧ (∀ k, fst k ≠ Env.uploadStreamId env →
       Mongo.chunks (Server.db (snd out')) !! k = Mongo.chunks (Server.db st) !! k)
  ∧ Server.console (snd out') = Server.console (snd out).
Proof.
  intros out out' C Hid Ff Fg Fd.
  destruct (post_pdfs_201 req env st C) as (f & b & d1 & _ & _ & U & _ & _ & L & _ & D & B).
  fold out in D, B.
  pose proof (f_equal (fun r => snd r) U) as Us. cbn in Us.
  apply upload_ok in U as (_ & Lf & I & Fl & P).
  set (doc := new_record env f (Server.body_of req)) in *.
  assert (Hl : Mongo.pdfs (Server.db (snd out)) !! Env.newPdfId env = Some doc).
  { rewrite D. cbn. apply lookup_insert_eq. }
  subst out'. unfold Server.delete_pdf.
  rewrite (findById_ok id _ env' _ Hid Ff), Hl.
  rewrite (findByIdAndDelete_ok id _ env' _ Hid Fd).
  cbn [fst snd Server.with_db Server.db Server.console Mongo.with_pdfs Mongo.pdfs
       Mongo.files Mongo.chunks].
  rewrite cleanup_pdfs.
  destruct (cleanup_ok doc b env' (snd out) B Fg) as (Cf & Cn & Co & Cc).
  change (Pdf.fileId doc) with (Env.uploadStreamId env) in *.
  split; [done |]. split; [| split; [| split; [done | split]]].
  - rewrite D. cbn. rewrite P in *. by apply delete_insert_id.
  - rewrite Cf, D. cbn. rewrite Fl. by apply delete_insert_id.
  - intros k Hk. rewrite (Co k Hk), D. cbn.
    pose proof (insert_chunks_other (Env.uploadStreamId env)
      (GridFS.slice (N.to_nat (GridFS.chunkSizeBytes b)) (Multer.buffer f)) 0 None
      (Mongo.chunks (Server.db st)) k Hk) as O.
    by rewrite I in O.
  - apply Cc. rewrite D. cbn. rewrite Fl, lookup_insert_eq. by eexists.
Qed.

Lemma upload_then_delete_witness :
  let out := Server.post_pdfs (request0 JS.undefined) (env0 1 2 1000)
               (Server.on_open (Server.init Mongo.empty)) in
  Server.db (snd (Server.delete_pdf (hex24 2) (env0 3 4 2000) (snd out))) = Mongo.empty.
Proof.
  destruct (upload_then_delete (request0 JS.undefined) (env0 1 2 1000) (env0 3 4 2000)
              (Server.on_open (Server.init Mongo.empty)) (hex24 2))
    as (_ & P & F & _); try reflexivity.
Defined.

(** X11: a second delete finds nothing.  Once a delete of a well-formed id
    has gone through without a catalog failure, deleting the same id again is
    answered 404 and changes nothing. *)
Theorem delete_twice (id : string) (oid : Bson.ObjectId) (env env' : Env.t)
    (st : Server.state) :
  let st' := snd (Server.delete_pdf id env st) in
  Bson.parse id = Some oid →
  Env.failure env Env.PdfFindById = None →
  Env.failure env Env.PdfFindByIdAndDelete = None →
  Env.failure env' Env.PdfFindById = None →
  Server.delete_pdf id env' st' =
    ({| Server.status := 404; Server.content := Server.Json_error "PDF not found" |}, st').
Proof.
  intros st' Hid Ff Fd Ff'.
  assert (L : Mongo.pdfs (Server.db st') !! oid = None).
  { subst st'. unfold Server.delete_pdf.
    rewrite (findById_ok id oid env _ Hid Ff).
    destruct (Mongo.pdfs (Server.db st) !! oid) as [pdf |] eqn:E; [| done].
    rewrite (findByIdAndDelete_ok id oid env _ Hid Fd). cbn. apply lookup_delete_eq. }
  unfold Server.delete_pdf at 1.
  by rewrite (findById_ok id oid env' _ Hid Ff'), L.
Qed.

Lemma delete_twice_witness :
  let st' := snd (Server.delete_pdf (hex24 2) (env0 3 4 2000) (after_upload JS.undefined)) in
  Server.status (fst (Server.delete_pdf (hex24 2) (env0 5 6 3000) st')) = 404.
Proof.
  cbv zeta.
  rewrite (delete_twice (hex24 2) 2 (env0 3 4 2000) (env0 5 6 3000) (after_upload JS.undefined)
             eq_refl eq_refl eq_refl eq_refl).
  reflexivity.
Defined.

(** X12: a delete touches nothing but its target.  Whatever fails, the delete
    route leaves every record under another id, every blob other than the one
    the target record references, and the bucket handle as they were. *)
Theorem delete_touches_only_its_target (id : string) (env : Env.t) (st : Server.state) :
  let st' := snd (Server.delete_pdf id env st) in
  (∀ k, Bson.parse id ≠ Some k →
     Mongo.pdfs (Server.db st') !! k = Mongo.pdfs (Server.db st) !! k)
  ∧ (∀ fid,
       (∀ oid pdf, Bson.parse id = Some oid → Mongo.pdfs (Server.db st) !! oid = Some pdf →
          Pdf.fileId pdf ≠ fid) →
       Mongo.files (Server.db st') !! fid = Mongo.files (Server.db st) !! fid
       ∧ ∀ n, Mongo.chunks (Server.db st') !! (fid, n) = Mongo.chunks (Server.db st) !! (fid, n))
  ∧ Server.gridfsBucket st' = Server.gridfsBucket st.
Proof.
  intros st'. subst st'. unfold Server.delete_pdf.
  destruct (Mongoose.findById id env (Server.db st)) as [e | [pdf |]] eqn:Fb; [done | | done].
  apply findById_Some in Fb as (oid & Hid & L).
  assert (Hc : Mongoose.castObjectId id = inr oid)
    by (unfold Mongoose.castObjectId; by rewrite Hid).
  assert (Hdb : ∀ k, k ≠ oid →
            Mongo.pdfs (snd (Mongoose.findByIdAndDelete id env
                               (Server.db (Server.cleanup pdf env st)))) !! k
            = Mongo.pdfs (Server.db st) !! k).
  { intros k Hk. unfold Mongoose.findByIdAndDelete. rewrite Hc.
    destruct (Env.failure env Env.PdfFindByIdAndDelete); cbn; rewrite cleanup_pdfs; [done |].
    by apply lookup_delete_ne. }
  assert (Hfc : Mongo.files (snd (Mongoose.findByIdAndDelete id env
                                    (Server.db (Server.cleanup pdf env st))))
                = Mongo.files (Server.db (Server.cleanup pdf env st))
                ∧ Mongo.chunks (snd (Mongoose.findByIdAndDelete id env
                                       (Server.db (Server.cleanup pdf env st))))
                  = Mongo.chunks (Server.db (Server.cleanup pdf env st))).
  { unfold Mongoose.findByIdAndDelete. rewrite Hc.
    by destruct (Env.failure env Env.PdfFindByIdAndDelete). }
  destruct Hfc as [Hf Hch].
  destruct (Mongoose.findByIdAndDelete _ _ _) as [r d] eqn:Fd. cbn [snd] in *.
  assert (E : Server.db (snd (match r with
                              | inl _ => ({| Server.status := 500;
                                             Server.content := Server.Json_error "Failed to delete PDF" |},
                                          Server.with_db (Server.cleanup pdf env st) d)
                              | inr _ => ({| Server.status := 200;
                                             Server.content :=
                                               Server.Json_message "PDF deleted successfully" |},
                                          Server.with_db (Server.cleanup pdf env st) d)
                              end)) = d
              ∧ Server.gridfsBucket (snd (match r with
                              | inl _ => ({| Server.status := 500;
                                             Server.content := Server.Json_error "Failed to delete PDF" |},
                                          Server.with_db (Server.cleanup pdf env st) d)
                              | inr _ => ({| Server.status := 200;
                                             Server.content :=
                                               Server.Json_message "PDF deleted successfully" |},
                                          Server.with_db (Server.cleanup pdf env st) d)
                              end)) = Server.gridfsBucket st).
  { destruct r; cbn; by rewrite cleanup_bucket. }
  destruct E as [-> ->].
  split; [| split; [| done]].
  - intros k Hk. apply Hdb. congruence.
  - intros fid Hfid. specialize (Hfid oid pdf Hid L). rewrite Hf, Hch.
    unfold Server.cleanup. destruct (Server.gridfsBucket st) as [b |]; [| done].
    destruct (gridfs_delete_frame b (Pdf.fileId pdf) env (Server.db st)) as [Ff Fc].
    destruct (GridFS.delete _ _ _ _) as [[e |] d']; cbn in *.
    + split; [by apply Ff | intros n; by apply Fc].
    + split; [by apply Ff | intros n; by apply Fc].
Qed.

(** X13: the blob goes first.  When the record exists, the bucket is open
    and the blob cleanup works but the removal of the record then fails, the
    answer is 500 and the record is still stored, while the blob it
    references and all its chunks are already gone. *)
Theorem record_delete_failure_after_cleanup (id : string) (oid : Bson.ObjectId)
    (pdf : Pdf.t) (bucket : GridFS.bucket) (env : Env.t) (st : Server.state) (msg : string) :
  let out := Server.delete_pdf id env st in
  Bson.parse id = Some oid →
  Env.failure env Env.PdfFindById = None →
  Mongo.pdfs (Server.db st) !! oid = Some pdf →
  Server.gridfsBucket st = Some bucket →
  Env.failure env Env.GridFSDelete = None →
  Env.failure env Env.PdfFindByIdAndDelete = Some msg →
  fst out = {| Server.status := 500; Server.content := Server.Json_error "Failed to delete PDF" |}
  ∧ Mongo.pdfs (Server.db (snd out)) !! oid = Some pdf
  ∧ Mongo.files (Server.db (snd out)) !! Pdf.fileId pdf = None
  ∧ no_chunks_of (Pdf.fileId pdf) (Mongo.chunks (Server.db (snd out))).
Proof.
  intros out Hid Ff L B Fg Fd. subst out. unfold Server.delete_pdf.
  rewrite (findById_ok id oid env _ Hid Ff), L.
  unfold Mongoose.findByIdAndDelete, Mongoose.castObjectId. rewrite Hid, Fd.
  cbn [fst snd Server.with_db Server.db].
  destruct (cleanup_ok pdf bucket env st B Fg) as (Cf & Cn & _ & _).
  split; [done |]. split; [by rewrite cleanup_pdfs |]. split; [| done].
  rewrite Cf. apply lookup_delete_eq.
Qed.

Lemma record_delete_failure_after_cleanup_witness :
  let out := Server.delete_pdf (hex24 2) env_record_delete_fails (after_upload JS.undefined) in
  Server.status (fst out) = 500
  ∧ is_Some (Mongo.pdfs (Server.db (snd out)) !! 2)
  ∧ Mongo.files (Server.db (snd out)) !! 1 = None.
Proof.
  destruct (record_delete_failure_after_cleanup (hex24 2) 2
              (new_record (env0 1 2 1000) (Multer.memoryStorage one_byte)
                 (form0 "A" "B" JS.undefined))
              uploads env_record_delete_fails (after_upload JS.undefined) "not primary"
              eq_refl eq_refl eq_refl eq_refl eq_refl eq_refl)
    as (R & P & F & _).
  cbv zeta. rewrite R. split; [reflexivity |]. split; [by eexists | exact F].
Defined.

(** X14: an id that is not an object id.  When the text in the path is not
    24 hexadecimal digits, the delete route answers 500 "Failed to delete
    PDF" and, once the bucket is open, the file route answers 500 "Invalid
    document ID"; neither changes anything. *)
Theorem malformed_id_is_500 (id : string) (env : Env.t) (st : Server.state) :
  Bson.parse id = None →
  Server.delete_pdf id env st =
    ({| Server.status := 500; Server.content := Server.Json_error "Failed to delete PDF" |}, st)
  ∧ (is_Some (Server.gridfsBucket st) →
     Server.get_file id env st =
       ({| Server.status := 500; Server.content := Server.Json_error "Invalid document ID" |},
        st)).
Proof.
  intros H. split.
  - unfold Server.delete_pdf, Mongoose.findById, Mongoose.castObjectId. by rewrite H.
  - intros [b Hb]. unfold Server.get_file. by rewrite Hb, H.
Qed.

Lemma malformed_id_is_500_witness :
  Server.status (fst (Server.delete_pdf "12345" (env0 3 4 2000) (after_upload JS.undefined)))
  = 500.
Proof.
  destruct (malformed_id_is_500 "12345" (env0 3 4 2000) (after_upload JS.undefined) eq_refl)
    as [D _].
  by rewrite D.
Defined.

(** ** Reading never writes *)

Lemma get_pdfs_state env st : snd (Server.get_pdfs env st) = st.
Proof. unfold Server.get_pdfs. by destruct (Mongoose.find_sorted _ _). Qed.

Lemma get_file_db id env st : Server.db (snd (Server.get_file id env st)) = Server.db st.
Proof.
  unfold Server.get_file.
  destruct (Server.gridfsBucket st); [| done].
  destruct (Bson.parse id); [| done].
  by destruct (GridFS.download _ _ _ _) as [[| c data] [e |]].
Qed.

Lemma get_file_bucket id env st :
  Server.gridfsBucket (snd (Server.get_file id env st)) = Server.gridfsBucket st.
Proof.
  unfold Server.get_file.
  destruct (Server.gridfsBucket st) eqn:B; [| done].
  destruct (Bson.parse id); [| done].
  by destruct (GridFS.download _ _ _ _) as [[| c data] [e |]].
Qed.

(** X15: the two GET routes never write to the database or to the bucket
    handle.  The listing leaves the whole server as it was, and answers 500
    "Failed to fetch PDFs" when its query fails.  The file route leaves the
    whole server as it was in every case but one: when the download fails
    after data has been sent, the 200 response stays cut short, the uncaught
    error is printed, and the process exits. *)
Theorem get_routes_read_only (id : string) (env : Env.t) (st : Server.state) :
  let out := Server.get_file id env st in
  snd (Server.get_pdfs env st) = st
  ∧ (is_Some (Env.failure env Env.PdfFind) →
     fst (Server.get_pdfs env st) =
       {| Server.status := 500; Server.content := Server.Json_error "Failed to fetch PDFs" |})
  ∧ Server.db (snd out) = Server.db st
  ∧ Server.gridfsBucket (snd out) = Server.gridfsBucket st
  ∧ (Server.exits (fst out) = false → snd out = st)
  ∧ (Server.exits (fst out) = true →
     ∃ bucket fileId c data e,
       Server.gridfsBucket st = Some bucket
       ∧ Bson.parse id = Some fileId
       ∧ GridFS.download bucket fileId env (Server.db st) = (c :: data, Some e)
       ∧ fst out =
           {| Server.status := 200;
              Server.content := Server.Stream "application/pdf" (c :: data) false |}
       ∧ Server.console (snd out) =
           Server.console st ++ [(Server.Error, Server.uncaught_headers_sent)]).
Proof.
  intros out.
  split; [apply get_pdfs_state |]. split.
  { intros [msg H]. unfold Server.get_pdfs, Mongoose.find_sorted. by rewrite H. }
  split; [apply get_file_db |]. split; [apply get_file_bucket |].
  subst out. unfold Server.get_file.
  destruct (Server.gridfsBucket st) as [bucket |]; [| done].
  destruct (Bson.parse id) as [fileId |]; [| done].
  destruct (GridFS.download bucket fileId env (Server.db st)) as [[| c data] [e |]] eqn:D;
    cbn; split; try done.
  intros _. by exists bucket, fileId, c, data, e.
Qed.

(** The download of a blob whose second chunk is missing: one chunk goes
    out, then the process exits, and the upload that follows in the list is
    never handled. *)
Example download_fails_after_data :
  Server.get_file (hex24 7) (env0 0 0 0) damaged =
    ({| Server.status := 200;
        Server.content := Server.Stream "application/pdf" [[Byte.x25; Byte.x50]] false |},
     Server.say Server.Error Server.uncaught_headers_sent damaged)
  ∧ Server.run [Server.GetFile (hex24 7) (env0 0 0 0);
                Server.PostPdfs (upload0 JS.undefined) (env0 1 2 1000)] damaged
    = Server.say Server.Error Server.uncaught_headers_sent damaged.
Proof. vm_compute. done. Qed.

(** ** The bucket handle *)

Lemma post_pdfs_bucket req env st :
  Server.gridfsBucket (snd (Server.post_pdfs req env st)) = Server.gridfsBucket st.
Proof.
  unfold Server.post_pdfs.
  destruct (Server.file req) as [f |]; [| done].
  cbn [Server.say Server.gridfsBucket Server.db].
  destruct (Server.gridfsBucket st) as [bucket |] eqn:B; [| done].
  destruct (GridFS.upload _ _ _ _ _ _) as [[e |] d1]; [done |].
  cbn [Server.with_db Server.say Server.db].
  by destruct (Mongoose.save _ _ _) as [[e | saved] d2].
Qed.

Lemma delete_pdf_bucket id env st :
  Server.gridfsBucket (snd (Server.delete_pdf id env st)) = Server.gridfsBucket st.
Proof.
  unfold Server.delete_pdf.
  destruct (Mongoose.findById _ _ _) as [e | [pdf |]]; [done | | done].
  destruct (Mongoose.findByIdAndDelete _ _ _) as [[e | r] d]; cbn; apply cleanup_bucket.
Qed.

Lemma step_request_bucket e st :
  e ≠ Server.Open →
  Server.gridfsBucket (snd (Server.step e st)) = Server.gridfsBucket st.
Proof.
  intros H. destruct e as [| u env | env | id env | id env]; [done | | | |]; cbn [Server.step];
    clear H; generalize (Server.env_at st env); clear env; intros env.
  - unfold Server.route_post_pdfs.
    destruct (Multer.single _) as [e | f]; [done |].
    pose proof (post_pdfs_bucket {| Server.file := f; Server.body_of := Server.fields u |}
                  env st) as P.
    by destruct (Server.post_pdfs _ _ _).
  - pose proof (get_pdfs_state env st) as P.
    destruct (Server.get_pdfs env st). cbn in *. by subst.
  - pose proof (get_file_bucket id env st) as P.
    destruct (Server.get_file id env st). cbn in *. by rewrite P.
  - pose proof (delete_pdf_bucket id env st) as P.
    by destruct (Server.delete_pdf id env st).
Qed.

(** X16: the bucket handle is set by the [open] event and by nothing else,
    once and for all: no request sets it, the first [open] sets it to the
    bucket named "uploads" without touching the database, and from then on
    no event changes it. *)
Theorem bucket_handle_lifecycle (es : list Server.event) (st : Server.state) :
  (Server.Open ∉ es → Server.gridfsBucket (Server.run es st) = Server.gridfsBucket st)
  ∧ (∀ b, Server.gridfsBucket st = Some b → Server.gridfsBucket (Server.run es st) = Some b)
  ∧ (Server.gridfsBucket st = None →
     Server.gridfsBucket (Server.run (Server.Open :: es) st) = Some uploads)
  ∧ Server.db (Server.on_open st) = Server.db st.
Proof.
  assert (Hset : ∀ es st b, Server.gridfsBucket st = Some b →
                   Server.gridfsBucket (Server.run es st) = Some b).
  { clear. intros es st b Hb.
    apply (run_invariant (fun s => Server.gridfsBucket s = Some b)); [| done].
    clear. intros e st Hb.
    destruct e; [cbn; unfold Server.on_open; by rewrite Hb | ..];
      by rewrite step_request_bucket. }
  split; [| split; [apply Hset | split]].
  - revert st. induction es as [| e es IH]; intros st Hno; [done |].
    assert (He : e ≠ Server.Open) by set_solver.
    assert (Hes : Server.Open ∉ es) by set_solver.
    pose proof (step_request_bucket e st He) as Hs.
    cbn [Server.run]. destruct (Server.step e st) as [[r |] st']; cbn in Hs.
    + destruct (Server.exits r); [done |]. by rewrite IH.
    + by rewrite IH.
  - intros Hb. cbn [Server.run Server.step]. apply Hset.
    unfold Server.on_open. by rewrite Hb.
  - unfold Server.on_open. by destruct (Server.gridfsBucket st).
Qed.

(** ** Records stay well-formed *)

Lemma or_string_not_empty v : JS.or_string v "Unknown" ≠ "".
Proof.
  destruct v as [| s]; [done |]. unfold JS.or_string, JS.truthy.
  destruct (String.eqb_spec s ""); [done | done].
Qed.

Lemma step_records_valid e st :
  records_valid (Server.db st) → records_valid (Server.db (snd (Server.step e st))).
Proof.
  intros Inv. destruct e as [| u env | env | id env | id env]; cbn [Server.step];
    try (generalize (Server.env_at st env); clear env; intros env).
  - unfold Server.on_open. by destruct (Server.gridfsBucket st).
  - unfold Server.route_post_pdfs.
    destruct (Multer.single (Server.file_part u)) as [e | f]; [done |].
    set (req := {| Server.file := f; Server.body_of := Server.fields u |}).
    destruct (Server.post_pdfs req env st) as [r st'] eqn:E. cbn.
    destruct (decide (Server.status r = 201)) as [C | C].
    + pose proof (post_pdfs_created req env st) as H. rewrite E in H.
      destruct (H C) as (_ & doc & _ & _ & M & _ & V & A & P & L). cbn in M.
      intros k doc'. rewrite M. rewrite lookup_insert_Some.
      intros [[<- <-] | [_ Hk]]; [| by eapply Inv].
      apply validate_ok in V as [T Ct].
      split; [| done]. split; [done |]. split; [done |]. split; [| done].
      rewrite A. apply or_string_not_empty.
    + pose proof (post_pdfs_not_created req env st) as H. rewrite E in H.
      cbn in H. intros k doc'. rewrite (H C). apply Inv.
  - pose proof (get_pdfs_state env st) as P.
    destruct (Server.get_pdfs env st). cbn in *. by subst.
  - pose proof (get_file_db id env st) as P.
    destruct (Server.get_file id env st). cbn in *. by rewrite P.
  - destruct (Server.delete_pdf id env st) as [r st'] eqn:E. cbn.
    intros k doc L. eapply Inv.
    eapply (delete_pdf_lookup id env st). by rewrite E.
Qed.

(** X17: every stored record stays well-formed.  If every record in [pdfs]
    has a non-empty title, category and author, a [locked] flag equal to
    [price > 0] and is stored under its own [_id], then the same holds after
    any sequence of events; in particular it holds of everything a server
    started on an empty database ever stores. *)
Theorem stored_records_valid (es : list Server.event) (st : Server.state) :
  records_valid (Server.db st) → records_valid (Server.db (Server.run es st)).
Proof.
  apply (run_invariant (fun s => records_valid (Server.db s))).
  apply step_records_valid.
Qed.

Lemma stored_records_valid_witness :
  records_valid (Server.db (after_upload (JS.str "15"))).
Proof.
  apply (stored_records_valid
           [Server.Open; Server.PostPdfs (upload0 (JS.str "15")) (env0 1 2 1000)]
           (Server.init Mongo.empty)).
  intros id doc L. vm_compute in L. discriminate L.
Defined.

(** ** Chunk layout *)

Lemma slice_fuel_sizes (sz : nat) : ∀ fuel buf (i : nat) c,
  (0 < sz)%nat → (length buf ≤ fuel)%nat →
  GridFS.slice_fuel fuel sz buf !! i = Some c →
  (0 < length c)%nat
  ∧ (S i < length (GridFS.slice_fuel fuel sz buf) → length c = sz)%nat.
Proof.
  induction fuel as [| fuel IH]; intros buf i c Hs Hl H; [done |].
  destruct buf as [| b buf']; [done |].
  cbn [GridFS.slice_fuel] in *. destruct i as [| i].
  - injection H as <-. rewrite length_take. cbn [length]. split; [lia |].
    intros Hn.
    destruct (drop sz (b :: buf')) as [| x rest] eqn:D.
    + exfalso. destruct fuel; cbn in Hn; lia.
    + assert (length (drop sz (b :: buf')) ≠ 0)%nat by (rewrite D; done).
      rewrite length_drop in *. cbn [length] in *. lia.
  - cbn [lookup list_lookup] in H.
    destruct (IH (drop sz (b :: buf')) i c Hs) as [P Q]; [| done |].
    + rewrite length_drop. cbn [length] in *. lia.
    + split; [done |]. cbn [length]. intros Hn. apply Q. lia.
Qed.

(** X18: how a buffer is cut.  A buffer of [L] bytes is stored as
    [ceil(L / C)] chunks for the bucket's chunk size [C] = 255 KiB: none is
    empty, every chunk but the last has exactly [C] bytes, and an empty
    buffer has no chunk at all. *)
Theorem chunk_layout (bucket : GridFS.bucket) (buf : list Byte.byte) :
  let C := GridFS.chunkSizeBytes bucket in
  let L := N.of_nat (length buf) in
  let cs := GridFS.slice (N.to_nat C) buf in
  C = 261120
  ∧ N.of_nat (length cs) = (L + C - 1) / C
  ∧ L <= N.of_nat (length cs) * C
  ∧ (0 < L → (N.of_nat (length cs) - 1) * C < L)
  ∧ (∀ (i : nat) c, cs !! i = Some c →
       0 < N.of_nat (length c)
       ∧ (S i < length cs → N.of_nat (length c) = C)%nat).
Proof.
  intros C L cs.
  assert (HC : C = 261120) by done.
  assert (Hs : (0 < N.to_nat C)%nat) by lia.
  assert (Hn : N.of_nat (length cs) = (L + C - 1) / C).
  { subst cs. unfold GridFS.slice. rewrite (slice_fuel_count (N.to_nat C)) by done.
    unfold GridFS.chunk_count. rewrite N2Nat.id.
    destruct (N.eqb_spec C 0); [lia | done]. }
  split; [done |]. split; [done |].
  pose proof (N.div_mod (L + C - 1) C ltac:(lia)) as Dm.
  pose proof (N.mod_lt (L + C - 1) C ltac:(lia)) as Ml.
  rewrite <- Hn in Dm. rewrite HC in Dm, Ml.
  assert (A : ∀ l n r : N,
            l + 261120 - 1 = 261120 * n + r → r < 261120 →
            l <= n * 261120 ∧ (0 < l → (n - 1) * 261120 < l)) by (intros; lia).
  destruct (A _ _ _ Dm Ml) as [A1 A2]. rewrite HC at 1 2.
  split; [exact A1 |]. split; [exact A2 |].
  intros i c Hc. subst cs. unfold GridFS.slice in *.
  destruct (slice_fuel_sizes (N.to_nat C) (length buf) buf i c Hs (le_n _) Hc) as [P Q].
  split; [lia |]. intros Hi. specialize (Q Hi). lia.
Qed.

(** ** Status codes *)

Lemma post_pdfs_status req env st :
  Server.status (fst (Server.post_pdfs req env st)) ∈ [201; 400; 500; 503].
Proof.
  unfold Server.post_pdfs.
  destruct (Server.file req) as [f |]; [| cbn; set_solver].
  cbn [Server.say Server.gridfsBucket Server.db].
  destruct (Server.gridfsBucket st) as [bucket |]; [| cbn; set_solver].
  destruct (GridFS.upload _ _ _ _ _ _) as [[e |] d1]; [cbn; set_solver |].
  cbn [Server.with_db Server.say Server.db].
  destruct (Mongoose.save _ _ _) as [[e | saved] d2]; cbn; set_solver.
Qed.

(** X19: the status codes of the four routes.  The upload route answers
    201, 400, 500 or 503, the listing 200 or 500, the file route 200, 404,
    500 or 503, the delete route 200, 404 or 500; and the upload route
    answers 201 only with the stored record as its body. *)
Theorem route_status_codes (u : Server.upload) (id : string) (env : Env.t)
    (st : Server.state) :
  Server.status (fst (Server.route_post_pdfs u env st)) ∈ [201; 400; 500; 503]
  ∧ Server.status (fst (Server.get_pdfs env st)) ∈ [200; 500]
  ∧ Server.status (fst (Server.get_file id env st)) ∈ [200; 404; 500; 503]
  ∧ Server.status (fst (Server.delete_pdf id env st)) ∈ [200; 404; 500]
  ∧ (Server.status (fst (Server.route_post_pdfs u env st)) = 201 →
     ∃ doc, Server.content (fst (Server.route_post_pdfs u env st)) = Server.Json_pdf doc
            ∧ Mongo.pdfs (Server.db (snd (Server.route_post_pdfs u env st))) !! Pdf._id doc
              = Some doc).
Proof.
  split; [| split; [| split; [| split; [apply delete_pdf_status |]]]].
  - unfold Server.route_post_pdfs.
    destruct (Multer.single _) as [e | f]; [cbn; set_solver | apply post_pdfs_status].
  - unfold Server.get_pdfs. destruct (Mongoose.find_sorted _ _); cbn; set_solver.
  - unfold Server.get_file.
    destruct (Server.gridfsBucket st); [| cbn; set_solver].
    destruct (Bson.parse id); [| cbn; set_solver].
    destruct (GridFS.download _ _ _ _) as [[| c data] [e |]]; cbn; set_solver.
  - unfold Server.route_post_pdfs.
    destruct (Multer.single _) as [e | f]; [done |].
    intros C. destruct (post_pdfs_created _ env st C) as (_ & doc & _ & B & M & _).
    exists doc. split; [done |]. rewrite M. apply lookup_insert_eq.
Qed.
